(** * spack.util.module_cmd: the module command runner and the path extractor

    A shallow embedding of [lib/spack/spack/util/module_cmd.py] and the
    properties of it that the design document states.

    Python strings are [string]s of bytes (the Python 2 [str] the file
    was written for: line 52 splits the captured bytes on a [str], which
    only Python 2 accepts); a one-character string such as
    [cline[quote_index]] is an [ascii]. Indices are [Z], with [-1] for a
    failed [find] and Python's rules for negative indices and slices.
    Exceptions are values of [exn]; a pure function that can raise
    returns a [result], a function that touches the process environment
    or starts a process is a state transformer on [World]. *)

From Stdlib Require Import ZArith Lia Bool List Ascii String.
From stdpp Require Import gmap strings list fin_maps.

Import ListNotations.
Set Warnings "-register-all".
Local Open Scope string_scope.

(** ** Exceptions and results *)

Inductive exn : Type :=
  | IndexError
  | ValueError (msg : string)
  | TypeError
  | AttributeError
  | UnicodeDecodeError.

Inductive result (A : Type) : Type :=
  | Returns (a : A)
  | Raises (e : exn).

Arguments Returns {A} a.
Arguments Raises {A} e.

Definition rbind {A B} (r : result A) (k : A -> result B) : result B :=
  match r with
  | Returns a => k a
  | Raises e => Raises e
  end.

(** ** Python string primitives *)

Module Py.

(** The double quote character. *)
Definition dq : ascii := "034"%char.
(** The single quote character. *)
Definition sq : ascii := "'"%char.
(** The newline character. *)
Definition nl : ascii := "010"%char.

Definition str1 (c : ascii) : string := String c "".

(** [len(s)] *)
Definition len (s : string) : Z := Z.of_nat (String.length s).

(** Position of the first occurrence of [sub] in [s]. *)
Fixpoint find_opt (sub s : string) : option nat :=
  if String.prefix sub s then Some 0%nat
  else match s with
       | "" => None
       | String _ s' => option_map S (find_opt sub s')
       end.

(** [s.find(sub)]: the lowest index of [sub] in [s], [-1] when absent. *)
Definition find (sub s : string) : Z :=
  match find_opt sub s with
  | Some i => Z.of_nat i
  | None => (-1)%Z
  end.

(** [sub in s] *)
Definition contains (sub s : string) : bool := (0 <=? find sub s)%Z.

(** [s.index(sub)]: as [find], but raises when [sub] is absent. *)
Definition index (sub s : string) : result Z :=
  let i := find sub s in
  if (0 <=? i)%Z then Returns i else Raises (ValueError "substring not found").

(** A slice bound brought into [0 .. n]: a negative bound counts from
    the end. *)
Definition clamp (n i : Z) : Z :=
  if (i <? 0)%Z then Z.max (i + n) 0 else Z.min i n.

Fixpoint drop (n : nat) (s : string) : string :=
  match n, s with
  | O, _ => s
  | S _, "" => ""
  | S n', String _ s' => drop n' s'
  end.

Fixpoint take (n : nat) (s : string) : string :=
  match n, s with
  | O, _ => ""
  | S _, "" => ""
  | S n', String c s' => String c (take n' s')
  end.

(** [s[lo:hi]] *)
Definition slice (s : string) (lo hi : Z) : string :=
  let lo' := clamp (len s) lo in
  let hi' := clamp (len s) hi in
  take (Z.to_nat (hi' - lo')) (drop (Z.to_nat lo') s).

(** [s[lo:]] *)
Definition slice_from (s : string) (lo : Z) : string :=
  drop (Z.to_nat (clamp (len s) lo)) s.

(** [s[:hi]] *)
Definition slice_to (s : string) (hi : Z) : string :=
  take (Z.to_nat (clamp (len s) hi)) s.

(** [l[i]] on a list, negative indices counting from the end. *)
Definition getitem {A} (l : list A) (i : Z) : result A :=
  let n := Z.of_nat (List.length l) in
  let j := if (i <? 0)%Z then (i + n)%Z else i in
  if ((0 <=? j) && (j <? n))%Z then
    match nth_error l (Z.to_nat j) with
    | Some x => Returns x
    | None => Raises IndexError
    end
  else Raises IndexError.

(** [s[i]] on a string: the character at [i]. *)
Definition char_at (s : string) (i : Z) : result ascii :=
  let n := len s in
  let j := if (i <? 0)%Z then (i + n)%Z else i in
  if ((0 <=? j) && (j <? n))%Z then
    match String.get (Z.to_nat j) s with
    | Some c => Returns c
    | None => Raises IndexError
    end
  else Raises IndexError.

(** [s.split(c)] for a one-character separator: every occurrence of
    [c] ends a segment, so the result has one more segment than [s]
    has occurrences of [c]. *)
Fixpoint split (c : ascii) (s : string) : list string :=
  match s with
  | "" => [""]
  | String a s' =>
      if Ascii.eqb a c then "" :: split c s'
      else match split c s' with
           | w :: ws => String a w :: ws
           | [] => [str1 a]
           end
  end.

(** The characters [str.strip()] and [str.split()] treat as blank:
    space, tab, newline, vertical tab, form feed, carriage return. *)
Definition isspace (c : ascii) : bool :=
  let n := nat_of_ascii c in
  (n =? 32)%nat || ((9 <=? n)%nat && (n <=? 13)%nat).

(** [s.split()]: the maximal runs of non-blank characters. *)
Fixpoint split_ws (s : string) : list string :=
  match s with
  | "" => []
  | String a s' =>
      if isspace a then split_ws s'
      else match s' with
           | "" => [str1 a]
           | String b _ =>
               if isspace b then str1 a :: split_ws s'
               else match split_ws s' with
                    | w :: ws => String a w :: ws
                    | [] => [str1 a]
                    end
           end
  end.

Fixpoint lstrip (s : string) : string :=
  match s with
  | "" => ""
  | String a s' => if isspace a then lstrip s' else s
  end.

Fixpoint rstrip (s : string) : string :=
  match s with
  | "" => ""
  | String a s' =>
      match rstrip s' with
      | "" => if isspace a then "" else str1 a
      | r => String a r
      end
  end.

(** [s.strip()] *)
Definition strip (s : string) : string := rstrip (lstrip s).

(** [c.upper()] on one byte: only [a]..[z] change. *)
Definition upper_char (c : ascii) : ascii :=
  let n := nat_of_ascii c in
  if ((97 <=? n)%nat && (n <=? 122)%nat) then ascii_of_nat (n - 32) else c.

(** [s.upper()] *)
Fixpoint upper (s : string) : string :=
  match s with
  | "" => ""
  | String c s' => String (upper_char c) (upper s')
  end.

(** [sep.join(l)] *)
Fixpoint join (sep : string) (l : list string) : string :=
  match l with
  | [] => ""
  | [x] => x
  | x :: rest => x ++ sep ++ join sep rest
  end.

(** [min] of a sequence; [None] stands for the [ValueError] Python
    raises on an empty one. *)
Fixpoint min_of (l : list Z) : option Z :=
  match l with
  | [] => None
  | x :: rest =>
      match min_of rest with
      | None => Some x
      | Some m => Some (Z.min x m)
      end
  end.

End Py.

(** ** get_argument_from_module_line *)

(** The generator of line 92: the position in [cline] of each of the two
    quote characters that occurs in it. *)
Definition quote_positions (cline : string) : list Z :=
  List.map (fun q => Py.find (Py.str1 q) cline)
    (List.filter (fun q => Py.contains (Py.str1 q) cline) [Py.dq; Py.sq]).

Definition no_lua_quote : exn :=
  ValueError "No lua quote symbol found in lmod module line.".

Definition get_argument_from_module_line (line : string) : result string :=
  if Py.contains "(" line && Py.contains ")" line then
    rbind (Py.index "," line) (fun comma_index =>
    let cline := Py.slice_from line comma_index in
    match Py.min_of (quote_positions cline) with
    | None => Raises no_lua_quote
    | Some quote_index =>
        rbind (Py.char_at cline quote_index) (fun lua_quote =>
        let words_and_symbols := Py.split lua_quote line in
        Py.getitem words_and_symbols (-2))
    end)
  else
    Py.getitem (Py.split_ws line) 2.

(** ** The values [json.loads] produces *)

(** A decoded JSON document. Of a number the code can only observe
    whether it is zero (its truth value), so that is all that is kept.
    An object lists its items in the iteration order of the [dict]. *)
Inductive json : Type :=
  | JNull
  | JBool (b : bool)
  | JNumber (nonzero : bool)
  | JString (s : string)
  | JArray (items : list json)
  | JObject (items : list (string * json)).

(** Python's truth value of a decoded document. *)
Definition truthy (v : json) : bool :=
  match v with
  | JNull => false
  | JBool b => b
  | JNumber nz => nz
  | JString s => negb (String.eqb s "")
  | JArray l => negb (Nat.eqb (List.length l) 0)
  | JObject l => negb (Nat.eqb (List.length l) 0)
  end.

(** [iter(v)]: the elements a [for] loop over [v] sees. *)
Definition iterate (v : json) : result (list json) :=
  match v with
  | JArray l => Returns l
  | JString s => Returns (List.map (fun c => JString (Py.str1 c)) (list_ascii_of_string s))
  | JObject l => Returns (List.map (fun kv => JString (fst kv)) l)
  | _ => Raises TypeError
  end.

(** [k, v = item] *)
Definition unpack2 (item : json) : result (json * json) :=
  rbind (iterate item) (fun l =>
  match l with
  | [k; v] => Returns (k, v)
  | _ => Raises (ValueError "wrong number of values to unpack")
  end).

(** ** The world: the process environment and the processes started *)

Record Completed : Type := { stdout : string; returncode : Z }.

Record World : Type := {
  environ : gmap string string;   (* os.environ *)
  spawned : list string           (* the shell lines run so far, oldest first *)
}.

Definition M (A : Type) : Type := World -> result A * World.

Definition ret {A} (a : A) : M A := fun w => (Returns a, w).
Definition raise {A} (e : exn) : M A := fun w => (Raises e, w).
Definition lift {A} (r : result A) : M A := fun w => (r, w).
Definition bind {A B} (c : M A) (k : A -> M B) : M B :=
  fun w => match c w with
           | (Returns a, w') => k a w'
           | (Raises e, w') => (Raises e, w')
           end.

#[global] Instance M_ret : MRet M := @ret.
#[global] Instance M_bind : MBind M := fun A B k c => bind c k.

(** [os.environ.clear()] *)
Definition environ_clear : M unit :=
  fun w => (Returns tt, {| environ := ∅; spawned := spawned w |}).

(** [os.environ[key] = item]: [putenv] takes two strings. *)
Definition environ_setitem (key item : json) : M unit :=
  match key, item with
  | JString k, JString v =>
      fun w => (Returns tt, {| environ := <[k := v]> (environ w); spawned := spawned w |})
  | _, _ => raise TypeError
  end.

(** [for k in keys: self[k] = dict[k]] *)
Fixpoint assign_items (items : list (string * json)) : M unit :=
  match items with
  | [] => ret tt
  | (k, v) :: rest => environ_setitem (JString k) v;; assign_items rest
  end.

(** [for k, v in dict: self[k] = v] *)
Fixpoint assign_pairs (pairs : list json) : M unit :=
  match pairs with
  | [] => ret tt
  | item :: rest =>
      kv ← lift (unpack2 item);
      environ_setitem (fst kv) (snd kv);; assign_pairs rest
  end.

(** [os.environ.update(d)]: nothing for a false [d]; the items of a
    mapping, or else the pairs of a sequence, assigned one by one. *)
Definition environ_update (d : json) : M unit :=
  if truthy d then
    match d with
    | JObject items => assign_items items
    | _ => pairs ← lift (iterate d); assign_pairs pairs
    end
  else ret tt.

(** [bytes.decode()] with the default codec, then [str]: the text
    itself when it is 7-bit, [UnicodeDecodeError] otherwise. *)
Definition is_ascii (s : string) : bool :=
  List.forallb (fun c => (nat_of_ascii c <? 128)%nat) (list_ascii_of_string s).

Definition decode (s : string) : result string :=
  if is_ascii s then Returns s else Raises UnicodeDecodeError.

(** ** module *)

Definition module_change_commands : list string :=
  ["load"; "swap"; "unload"; "purge"; "use"; "unuse"].

Definition py_cmd : string :=
  "$'import os" ++ Py.str1 Py.nl ++ "import json" ++ Py.str1 Py.nl
  ++ "print(json.dumps(dict(os.environ)))'".

(** [x in l] on a list of strings. *)
Definition list_contains (x : string) (l : list string) : bool :=
  List.existsb (String.eqb x) l.

Section Runner.

(** What the shell does with a command line: the bytes the pipe
    collects and the exit status. It may depend on everything the
    world holds. Starting the shell itself is taken to succeed. *)
Variable popen : World -> string -> Completed.

(** [json.loads]; [None] when the text is not a JSON document
    (Python raises [ValueError]). *)
Variable json_loads : string -> option json.

(** [subprocess.Popen(cmd, stdout=PIPE, stderr=STDOUT, shell=True)]
    followed by [communicate()[0]]. *)
Definition Popen_communicate (cmd : string) : M string :=
  fun w => (Returns (stdout (popen w cmd)),
            {| environ := environ w; spawned := (spawned w ++ [cmd])%list |}).

Definition loads (s : string) : M json :=
  match json_loads s with
  | Some v => ret v
  | None => raise (ValueError "No JSON object could be decoded")
  end.

(** The result is [None] for Python's [None]. *)
Definition module (args : list string) : M (option string) :=
  arg0 ← lift (Py.getitem args 0);
  if list_contains arg0 module_change_commands then
    env_output ← Popen_communicate
      ("module " ++ Py.join " " args ++ " 2>&1"
       ++ " >/dev/null; python -c " ++ py_cmd);
    env ← lift (Py.getitem (Py.split Py.nl (Py.strip env_output)) (-1));
    env_dict ← loads env;
    environ_clear;;
    environ_update env_dict;;
    ret None
  else
    out ← Popen_communicate ("module " ++ Py.join " " args ++ " 2>&1");
    text ← lift (decode out);
    ret (Some text).

(** ** get_path_from_module *)

(** [for line in text: if cond(line): return body(line)]; [None] when
    the loop runs to its end. *)
Fixpoint for_return {A} (cond : string -> bool) (body : string -> result A)
    (text : list string) : option (result A) :=
  match text with
  | [] => None
  | line :: rest =>
      if cond line then Some (body line) else for_return cond body rest
  end.

Definition or_next {A} (loop : option (result A)) (next : result A) : result A :=
  match loop with
  | Some r => r
  | None => next
  end.

Definition found (sub line : string) : bool := (0 <=? Py.find sub line)%Z.

Definition path_from_text (mod_ : string) (text : list string) : result (option string) :=
  or_next (for_return (found "LD_LIBRARY_PATH")
             (fun line =>
                rbind (get_argument_from_module_line line) (fun path =>
                Returns (Some (Py.slice_to path (Py.find "/lib" path)))))
             text)
 (or_next (for_return (found (Py.upper mod_ ++ "_DIR"))
             (fun line =>
                rbind (get_argument_from_module_line line) (fun path =>
                Returns (Some path)))
             text)
 (or_next (for_return (found "-rpath/")
             (fun line =>
                let rpath := Py.find "-rpath/" line in
                Returns (Some (Py.slice line (rpath + 6) (Py.find "/lib" line))))
             text)
 (or_next (for_return (found "-L/")
             (fun line =>
                let L := Py.find "-L/" line in
                Returns (Some (Py.slice line (L + 2) (Py.find "/lib" line))))
             text)
 (or_next (for_return (found "PATH")
             (fun line =>
                rbind (get_argument_from_module_line line) (fun path =>
                Returns (Some (Py.slice_to path (Py.find "/bin" path)))))
             text)
 (Returns None))))).

Definition get_path_from_module (mod_ : string) : M (option string) :=
  shown ← module ["show"; mod_];
  match shown with
  | Some out => lift (path_from_text mod_ (Py.split Py.nl out))
  | None => raise AttributeError
  end.

End Runner.

(** ** load_module *)

Section Loader.

Variable popen : World -> string -> Completed.
Variable json_loads : string -> option json.

(** The loop [for i, word in enumerate(text)] of lines 77-79, at index
    [i] with [words] still to visit; [text] is the whole list, which
    [text[i + 1]] indexes. *)
Fixpoint unload_conflicts (text : list string) (i : nat) (words : list string)
  : M unit :=
  match words with
  | [] => ret tt
  | word :: rest =>
      (if String.eqb word "conflict" then
         next ← lift (Py.getitem text (Z.of_nat i + 1));
         module popen json_loads ["unload"; next];;
         ret tt
       else ret tt);;
      unload_conflicts text (S i) rest
  end.

Definition load_module (mod_ : string) : M unit :=
  shown ← module popen json_loads ["show"; mod_];
  match shown with
  | Some out =>
      let text := Py.split_ws out in
      unload_conflicts text 0 text;;
      module popen json_loads ["load"; mod_];;
      ret tt
  | None => raise AttributeError
  end.

End Loader.

(** * Vocabulary of the properties *)

Definition is_quote (c : ascii) : bool := Ascii.eqb c Py.dq || Ascii.eqb c Py.sq.

(** The quote character that appears first in [s], reading [s] from
    the left. *)
Fixpoint first_quote (s : string) : option ascii :=
  match s with
  | "" => None
  | String c s' => if is_quote c then Some c else first_quote s'
  end.

(** [line] is the first line of [text] that contains [sub]. *)
Definition first_line_with (sub : string) (text : list string) (line : string) : Prop :=
  exists pre post, text = (pre ++ line :: post)%list
                   /\ List.Forall (fun l => found sub l = false) pre
                   /\ found sub line = true.

(** No line of [text] contains [sub]. *)
Definition no_line_with (sub : string) (text : list string) : Prop :=
  List.Forall (fun l => found sub l = false) text.

(** The shell line of the read-only branch (line 60) and that of the
    mutating branch (lines 44-45). *)
Definition read_cmd (args : list string) : string :=
  "module " ++ Py.join " " args ++ " 2>&1".

Definition change_cmd (args : list string) : string :=
  "module " ++ Py.join " " args ++ " 2>&1" ++ " >/dev/null; python -c " ++ py_cmd.

Definition show_cmd (mod_ : string) : string := read_cmd ["show"; mod_].

Definition logged (cmd : string) (w : World) : World :=
  {| environ := environ w; spawned := (spawned w ++ [cmd])%list |}.

Definition ld_library_path : string := "LD_LIBRARY_PATH".
Definition module_dir (mod_ : string) : string := Py.upper mod_ ++ "_DIR".

(** What each tier returns for the line it has selected. *)
Definition from_ld_library_path (line : string) : result (option string) :=
  rbind (get_argument_from_module_line line) (fun path =>
  Returns (Some (Py.slice_to path (Py.find "/lib" path)))).

Definition from_module_dir (line : string) : result (option string) :=
  rbind (get_argument_from_module_line line) (fun path => Returns (Some path)).

Definition from_rpath (line : string) : result (option string) :=
  Returns (Some (Py.slice line (Py.find "-rpath/" line + 6) (Py.find "/lib" line))).

Definition from_lib_dir (line : string) : result (option string) :=
  Returns (Some (Py.slice line (Py.find "-L/" line + 2) (Py.find "/lib" line))).

Definition from_path (line : string) : result (option string) :=
  rbind (get_argument_from_module_line line) (fun path =>
  Returns (Some (Py.slice_to path (Py.find "/bin" path)))).

(** A line of the Lua shape with a comma, after which no quote
    character comes. *)
Definition unquoted_lua_line (line : string) : Prop :=
  Py.contains "(" line = true /\ Py.contains ")" line = true
  /\ (0 <= Py.find "," line)%Z
  /\ Py.contains (Py.str1 Py.dq) (Py.slice_from line (Py.find "," line)) = false
  /\ Py.contains (Py.str1 Py.sq) (Py.slice_from line (Py.find "," line)) = false.

(** [s] without its last character; the empty string stays empty. *)
Fixpoint without_last (s : string) : string :=
  match s with
  | "" => ""
  | String a s' =>
      match s' with
      | "" => ""
      | String _ _ => String a (without_last s')
      end
  end.

(** The last line of the output once its leading and trailing blanks
    are removed. *)
Definition last_line (out : string) : string :=
  List.last (Py.split Py.nl (Py.strip out)) "".

Fixpoint all_blank (s : string) : bool :=
  match s with
  | "" => true
  | String c s' => Py.isspace c && all_blank s'
  end.

(** A word: not empty and without a blank. *)
Fixpoint no_blank (s : string) : bool :=
  match s with
  | "" => true
  | String c s' => negb (Py.isspace c) && no_blank s'
  end.

Definition is_word (w : string) : bool :=
  match w with
  | "" => false
  | String _ _ => no_blank w
  end.

(** A payload line: not empty, no newline in it, no blank at either
    end. *)
Definition payload_line (p : string) : Prop :=
  Py.contains (Py.str1 Py.nl) p = false
  /\ (exists c t, p = String c t /\ Py.isspace c = false)
  /\ (exists u c, p = u ++ Py.str1 c /\ Py.isspace c = false).

Definition not_json : exn := ValueError "No JSON object could be decoded".

(** A snapshot with string values, as [json.loads] returns it. *)
Definition snapshot (kvs : list (string * string)) : json :=
  JObject (List.map (fun kv => (fst kv, JString (snd kv))) kvs).

Definition set_all (env : gmap string string) (kvs : list (string * string))
  : gmap string string :=
  foldl (fun m kv => <[fst kv := snd kv]> m) env kvs.

(** * Inputs used as instances *)

Definition lua_line : string :=
  "setenv(" ++ Py.str1 Py.dq ++ "LD_LIBRARY_PATH" ++ Py.str1 Py.dq ++ ","
  ++ Py.str1 Py.dq ++ "/opt/foo/2.0/lib64" ++ Py.str1 Py.dq ++ ")".

Definition tcl_line : string := "setenv LD_LIBRARY_PATH /opt/foo/2.0/lib".

Definition bare_lua_line : string := "setenv(LD_LIBRARY_PATH, /opt/foo/2.0/lib)".

(** A shell that prints [out] and exits with [rc], whatever it is
    asked. *)
Definition sh_const (out : string) (rc : Z) : World -> string -> Completed :=
  fun _ _ => {| stdout := out; returncode := rc |}.

Definition no_json : string -> option json := fun _ => None.

Definition w0 : World := {| environ := {["BAZ" := "1"]}; spawned := [] |}.

Definition dir_then_ld_text : string :=
  "setenv FOO_DIR /opt/foo/2.0" ++ Py.str1 Py.nl
  ++ "setenv LD_LIBRARY_PATH /opt/bar/1.0/lib".

Definition rpath_text : string := "cc -rpath/opt/foo/3.1/lib -o out".

(** A link line that names a library directory before its -rpath. *)
Definition lib_before_rpath_text : string :=
  "cc -L/usr/lib -rpath/opt/foo/3.1/lib -o out".

Definition snapshot_line : string :=
  "{" ++ Py.str1 Py.dq ++ "FOO" ++ Py.str1 Py.dq ++ ": "
  ++ Py.str1 Py.dq ++ "bar" ++ Py.str1 Py.dq ++ "}".

(** What a module system with a banner leaves in the pipe. *)
Definition banner_output : string :=
  "WARNING: this module is deprecated" ++ Py.str1 Py.nl
  ++ snapshot_line ++ Py.str1 Py.nl.

(** A decoder that knows [snapshot_line] and nothing else. *)
Definition loads_snapshot_line : string -> option json :=
  fun s => if String.eqb s snapshot_line
           then Some (snapshot [("FOO", "bar")]) else None.

Definition usage_text : string := "Usage: module show name".

(** ** Further vocabulary *)

(** The shell lines that unload and load a module. *)
Definition unload_cmd (name : string) : string := change_cmd ["unload"; name].
Definition load_cmd (mod_ : string) : string := change_cmd ["load"; mod_].

Definition is_conflict (word : string) : bool := String.eqb word "conflict".

(** The words that follow a word [conflict], in the order of the
    text. *)
Fixpoint conflicts (words : list string) : list string :=
  match words with
  | [] => []
  | word :: rest =>
      if is_conflict word then
        match rest with
        | next :: _ => next :: conflicts rest
        | [] => []
        end
      else conflicts rest
  end.

(** Whether a decoded value is a string. *)
Definition is_string (v : json) : bool :=
  match v with
  | JString _ => true
  | _ => false
  end.

(** The items of a snapshot, as [json.loads] returns them. *)
Definition string_items (kvs : list (string * string)) : list (string * json) :=
  List.map (fun kv => (fst kv, JString (snd kv))) kvs.

(** Whether the last word is [conflict]. *)
Fixpoint ends_with_conflict (words : list string) : bool :=
  match words with
  | [] => false
  | [word] => is_conflict word
  | _ :: rest => ends_with_conflict rest
  end.

(** A decoder that takes every text for the same snapshot. *)
Definition loads_always (kvs : list (string * string)) : string -> option json :=
  fun _ => Some (snapshot kvs).

(** What [module show] prints for a module with two conflicts. *)
Definition conflict_text : string :=
  "conflict gcc/4.9" ++ Py.str1 Py.nl
  ++ "conflict intel" ++ Py.str1 Py.nl
  ++ "setenv GCC_DIR /opt/gcc/9.1.0".

Definition no_comma : exn := ValueError "substring not found".

Definition whatis_line : string :=
  "whatis(" ++ Py.str1 Py.dq ++ "sets LD_LIBRARY_PATH" ++ Py.str1 Py.dq ++ ")".

Definition two_lib_line : string := "setenv LD_LIBRARY_PATH /opt/lib/foo/lib64".

Definition lib64_text : string := "cc -L/lib64 -lm".

Definition half_snapshot : json :=
  JObject [("FOO", JString "bar"); ("N", JNumber true); ("BAZ", JString "2")].

(** * Properties *)

(** ** Strings *)

Lemma find_opt_char_cons (c a : ascii) (s : string) :
  Py.find_opt (Py.str1 c) (String a s) =
  if Ascii.eqb a c then Some 0%nat else option_map S (Py.find_opt (Py.str1 c) s).
Proof.
  simpl. destruct (ascii_dec c a) as [->|Hne].
  - rewrite Ascii.eqb_refl. now destruct s.
  - destruct (Ascii.eqb a c) eqn:E; [apply Ascii.eqb_eq in E; congruence|reflexivity].
Qed.

Lemma contains_find_opt (sub s : string) :
  Py.contains sub s = true <-> exists n, Py.find_opt sub s = Some n.
Proof.
  unfold Py.contains, Py.find. destruct (Py.find_opt sub s) as [n|].
  - split; [eauto|intros _; apply Z.leb_le; lia].
  - split; [intros H; apply Z.leb_le in H; lia|intros [n H]; discriminate].
Qed.

Lemma contains_false_find_opt (sub s : string) :
  Py.contains sub s = false <-> Py.find_opt sub s = None.
Proof.
  unfold Py.contains, Py.find. destruct (Py.find_opt sub s) as [n|].
  - split; [intros H; apply Z.leb_gt in H; lia|discriminate].
  - split; [reflexivity|intros _; reflexivity].
Qed.

(** A character found in a suffix of [s] is found in [s]. *)
Lemma find_opt_char_drop (c : ascii) (k : nat) (s : string) (n : nat) :
  Py.find_opt (Py.str1 c) (Py.drop k s) = Some n ->
  exists m, Py.find_opt (Py.str1 c) s = Some m.
Proof.
  revert s. induction k as [|k IH]; intros s H; [eauto|].
  destruct s as [|a s]; [discriminate|]. simpl in H.
  destruct (IH _ H) as [m Hm]. rewrite find_opt_char_cons.
  destruct (Ascii.eqb a c); [eauto|]. rewrite Hm. simpl. eauto.
Qed.

(** ** Lists and indices *)

(** Settles the comparisons of an index against its bounds. *)
Ltac index_bounds :=
  repeat match goal with
    | |- context [(?a <=? ?b)%Z] =>
        first [ replace (a <=? b)%Z with true by (symmetry; apply Z.leb_le; lia)
              | replace (a <=? b)%Z with false by (symmetry; apply Z.leb_gt; lia) ]
    | |- context [(?a <? ?b)%Z] =>
        first [ replace (a <? b)%Z with true by (symmetry; apply Z.ltb_lt; lia)
              | replace (a <? b)%Z with false by (symmetry; apply Z.ltb_ge; lia) ]
    end.

Lemma getitem_last {A} (init : list A) (x : A) :
  Py.getitem (init ++ [x])%list (-1) = Returns x.
Proof.
  unfold Py.getitem. rewrite length_app. cbn [List.length]. index_bounds.
  cbn [andb].
  replace (Z.to_nat (-1 + Z.of_nat (List.length init + 1))) with (List.length init) by lia.
  rewrite nth_error_app2 by lia. now rewrite Nat.sub_diag.
Qed.

Lemma getitem_penultimate {A} (init : list A) (x y : A) :
  Py.getitem (init ++ [x; y])%list (-2) = Returns x.
Proof.
  unfold Py.getitem. rewrite length_app. cbn [List.length]. index_bounds.
  cbn [andb].
  replace (Z.to_nat (-2 + Z.of_nat (List.length init + 2))) with (List.length init) by lia.
  rewrite nth_error_app2 by lia. now rewrite Nat.sub_diag.
Qed.

Lemma getitem_nth_error {A} (l : list A) (i : nat) (x : A) :
  nth_error l i = Some x -> Py.getitem l (Z.of_nat i) = Returns x.
Proof.
  intros H. unfold Py.getitem.
  assert (Hlt : (i < List.length l)%nat) by (apply nth_error_Some; congruence).
  index_bounds. cbn [andb]. now rewrite Nat2Z.id, H.
Qed.

Lemma getitem_head {A} (x : A) (l : list A) : Py.getitem (x :: l) 0 = Returns x.
Proof. unfold Py.getitem. cbn [List.length]. index_bounds. reflexivity. Qed.

(** [split] never returns an empty list: it always has a last segment. *)
Lemma split_snoc (c : ascii) (s : string) :
  exists init last, Py.split c s = (init ++ [last])%list.
Proof.
  induction s as [|a s (init & last & IH)]; [now exists [], ""|].
  simpl. destruct (Ascii.eqb a c).
  - exists ("" :: init), last. now rewrite IH.
  - rewrite IH. destruct init as [|w ws]; simpl.
    + now exists [], (String a last).
    + now exists (String a w :: ws), last.
Qed.

(** Where the separator occurs there are at least two segments. *)
Lemma split_two (c : ascii) (s : string) (n : nat) :
  Py.find_opt (Py.str1 c) s = Some n ->
  exists init arg last, Py.split c s = (init ++ [arg; last])%list.
Proof.
  revert n. induction s as [|a s IH]; intros n H; [discriminate|].
  rewrite find_opt_char_cons in H. simpl. destruct (Ascii.eqb a c).
  - destruct (split_snoc c s) as (init & last & ->).
    destruct init as [|w ws] using rev_ind.
    + now exists [], "", last.
    + exists ("" :: ws), w, last. now rewrite <- app_assoc.
  - destruct (Py.find_opt (Py.str1 c) s) as [m|]; [|discriminate].
    destruct (IH m eq_refl) as (init & arg & last & ->).
    destruct init as [|w ws]; simpl.
    + now exists [], (String a arg), last.
    + now exists (String a w :: ws), arg, last.
Qed.

(** ** The quote that delimits a Lua argument *)

Lemma contains_char_cons (c a : ascii) (s : string) :
  Py.contains (Py.str1 c) (String a s) = Ascii.eqb a c || Py.contains (Py.str1 c) s.
Proof.
  unfold Py.contains, Py.find. rewrite find_opt_char_cons.
  destruct (Ascii.eqb a c); [reflexivity|].
  destruct (Py.find_opt (Py.str1 c) s) as [n|]; [|reflexivity].
  cbn [option_map orb]. symmetry. apply Z.leb_le. lia.
Qed.

Lemma find_char_cons (c a : ascii) (s : string) :
  Ascii.eqb a c = false -> Py.contains (Py.str1 c) s = true ->
  Py.find (Py.str1 c) (String a s) = Z.succ (Py.find (Py.str1 c) s).
Proof.
  intros Ha Hc. apply contains_find_opt in Hc as [n Hn].
  unfold Py.find. rewrite find_opt_char_cons, Ha, Hn. simpl. lia.
Qed.

Lemma find_char_here (c : ascii) (s : string) :
  Py.find (Py.str1 c) (String c s) = 0%Z.
Proof.
  unfold Py.find. now rewrite find_opt_char_cons, Ascii.eqb_refl.
Qed.

Lemma quote_positions_eq (s : string) :
  quote_positions s =
  ((if Py.contains (Py.str1 Py.dq) s then [Py.find (Py.str1 Py.dq) s] else [])
   ++ (if Py.contains (Py.str1 Py.sq) s then [Py.find (Py.str1 Py.sq) s] else []))%list.
Proof.
  unfold quote_positions. cbn [List.filter List.map].
  destruct (Py.contains (Py.str1 Py.dq) s), (Py.contains (Py.str1 Py.sq) s); reflexivity.
Qed.

Lemma quote_positions_cons (a : ascii) (s : string) :
  is_quote a = false ->
  quote_positions (String a s) = List.map Z.succ (quote_positions s).
Proof.
  intros Ha. unfold is_quote in Ha. apply orb_false_elim in Ha as [Hd Hs].
  rewrite !quote_positions_eq, !contains_char_cons, Hd, Hs. cbn [orb].
  destruct (Py.contains (Py.str1 Py.dq) s) eqn:Ed;
    destruct (Py.contains (Py.str1 Py.sq) s) eqn:Es; cbn [List.map app];
    rewrite ?find_char_cons by assumption; reflexivity.
Qed.

Lemma min_of_succ (l : list Z) :
  Py.min_of (List.map Z.succ l) = option_map Z.succ (Py.min_of l).
Proof.
  induction l as [|x l IH]; [reflexivity|]. simpl. rewrite IH.
  destruct (Py.min_of l); simpl; [f_equal; lia|reflexivity].
Qed.

Lemma min_of_nonneg (l : list Z) (m : Z) :
  Forall (fun x => 0 <= x)%Z l -> Py.min_of l = Some m -> (0 <= m)%Z.
Proof.
  revert m. induction l as [|x l IH]; intros m Hl H; [discriminate|].
  inversion Hl; subst. simpl in H. destruct (Py.min_of l) as [m'|].
  - injection H as <-. specialize (IH m' ltac:(assumption) eq_refl). lia.
  - now injection H as <-.
Qed.

Lemma char_at_cons (a : ascii) (s : string) (i : Z) :
  (0 <= i)%Z -> Py.char_at (String a s) (Z.succ i) = Py.char_at s i.
Proof.
  intros Hi. unfold Py.char_at, Py.len. cbn [String.length].
  destruct (Z.lt_ge_cases i (Z.of_nat (String.length s))); index_bounds;
    cbn [andb]; [|reflexivity].
  replace (Z.to_nat (Z.succ i)) with (S (Z.to_nat i)) by lia. reflexivity.
Qed.

Lemma quote_positions_nonneg (s : string) :
  Forall (fun x => 0 <= x)%Z (quote_positions s).
Proof.
  rewrite quote_positions_eq.
  destruct (Py.contains (Py.str1 Py.dq) s) eqn:Ed;
    destruct (Py.contains (Py.str1 Py.sq) s) eqn:Es; cbn [app];
    repeat constructor; apply Z.leb_le; assumption.
Qed.

(** The character at the smallest position that [find] reports for a
    quote is the quote met first. *)
Lemma first_quote_min (s : string) (q : ascii) :
  first_quote s = Some q ->
  exists i, Py.min_of (quote_positions s) = Some i /\ Py.char_at s i = Returns q
            /\ exists n, Py.find_opt (Py.str1 q) s = Some n.
Proof.
  induction s as [|a s IH]; intros H; [discriminate|]. simpl in H.
  destruct (is_quote a) eqn:Ha.
  - injection H as ->. exists 0%Z. split; [|split].
    + pose proof (quote_positions_nonneg (String q s)) as Hnn.
      rewrite quote_positions_eq in *. rewrite !contains_char_cons in *.
      unfold is_quote in Ha.
      destruct (Ascii.eqb q Py.dq) eqn:Hd.
      * apply Ascii.eqb_eq in Hd. subst q. cbn [orb app] in *.
        rewrite find_char_here in *.
        destruct (_ || _); cbn [app Py.min_of] in *; [|reflexivity].
        inversion Hnn as [|? ? _ Hnn']. inversion Hnn'. f_equal. lia.
      * cbn [orb] in Ha. apply Ascii.eqb_eq in Ha. subst q. cbn [orb app] in *.
        rewrite find_char_here in *.
        destruct (Py.contains _ s); cbn [app Py.min_of] in *; [|reflexivity].
        inversion Hnn. f_equal. lia.
    + reflexivity.
    + exists 0%nat. rewrite find_opt_char_cons. now rewrite Ascii.eqb_refl.
  - destruct (IH H) as (i & Hmin & Hat & n & Hn).
    exists (Z.succ i). split; [|split].
    + rewrite quote_positions_cons, min_of_succ, Hmin by assumption. reflexivity.
    + rewrite char_at_cons; [assumption|].
      eapply min_of_nonneg; [apply quote_positions_nonneg|eassumption].
    + rewrite find_opt_char_cons. destruct (Ascii.eqb a q); [eauto|].
      rewrite Hn. simpl. eauto.
Qed.

Lemma first_quote_none (s : string) :
  Py.contains (Py.str1 Py.dq) s = false ->
  Py.contains (Py.str1 Py.sq) s = false ->
  first_quote s = None.
Proof.
  rewrite !contains_false_find_opt.
  induction s as [|a s IH]; intros Hd Hs; [reflexivity|].
  rewrite find_opt_char_cons in Hd, Hs. simpl. unfold is_quote.
  destruct (Ascii.eqb a Py.dq); [discriminate|].
  destruct (Ascii.eqb a Py.sq); [discriminate|]. simpl.
  apply IH.
  - now destruct (Py.find_opt (Py.str1 Py.dq) s).
  - now destruct (Py.find_opt (Py.str1 Py.sq) s).
Qed.

Lemma find_index (sub s : string) (i : Z) :
  Py.find sub s = i -> (0 <= i)%Z -> Py.index sub s = Returns i.
Proof.
  intros <- Hi. unfold Py.index. now apply Z.leb_le in Hi as ->.
Qed.

Lemma slice_from_drop (s : string) (i : Z) :
  Py.slice_from s i = Py.drop (Z.to_nat (Py.clamp (Py.len s) i)) s.
Proof. reflexivity. Qed.

(** ** The loops of get_path_from_module *)

Lemma for_return_first {A} (cond : string -> bool) (body : string -> result A)
    (pre post : list string) (line : string) :
  List.Forall (fun l => cond l = false) pre -> cond line = true ->
  for_return cond body (pre ++ line :: post) = Some (body line).
Proof.
  intros Hpre Hline. induction Hpre as [|l pre Hl _ IH]; simpl.
  - now rewrite Hline.
  - now rewrite Hl.
Qed.

Lemma for_return_none {A} (cond : string -> bool) (body : string -> result A)
    (text : list string) :
  List.Forall (fun l => cond l = false) text -> for_return cond body text = None.
Proof.
  intros H. induction H as [|l text Hl _ IH]; simpl; [reflexivity|now rewrite Hl].
Qed.

Lemma for_return_found {A} (sub : string) (body : string -> result A)
    (text : list string) (line : string) :
  first_line_with sub text line ->
  for_return (found sub) body text = Some (body line).
Proof. intros (pre & post & -> & Hpre & Hline). now apply for_return_first. Qed.

Lemma for_return_absent {A} (sub : string) (body : string -> result A)
    (text : list string) :
  no_line_with sub text -> for_return (found sub) body text = None.
Proof. apply for_return_none. Qed.

(** ** Running a read-only command *)

Section RunnerFacts.

Variable popen : World -> string -> Completed.
Variable json_loads : string -> option json.

(** The read-only branch, as one equation. *)
Lemma module_read_only (tok : string) (rest : list string) (w : World) :
  list_contains tok module_change_commands = false ->
  module popen json_loads (tok :: rest) w
  = (rbind (decode (stdout (popen w (read_cmd (tok :: rest)))))
       (fun text => Returns (Some text)),
     logged (read_cmd (tok :: rest)) w).
Proof.
  intros Htok. unfold module, mbind, M_bind, bind, lift.
  rewrite getitem_head, Htok.
  unfold Popen_communicate. fold (read_cmd (tok :: rest)).
  fold (logged (read_cmd (tok :: rest)) w).
  destruct (decode _); reflexivity.
Qed.

Lemma module_show (mod_ text : string) (w : World) :
  stdout (popen w (show_cmd mod_)) = text ->
  is_ascii text = true ->
  module popen json_loads ["show"; mod_] w
  = (Returns (Some text), logged (show_cmd mod_) w).
Proof.
  intros Hout Hascii. rewrite module_read_only by reflexivity.
  fold (show_cmd mod_). rewrite Hout. unfold decode. now rewrite Hascii.
Qed.

Lemma get_path_from_module_text (mod_ text : string) (w : World) :
  stdout (popen w (show_cmd mod_)) = text ->
  is_ascii text = true ->
  get_path_from_module popen json_loads mod_ w
  = (path_from_text mod_ (Py.split Py.nl text), logged (show_cmd mod_) w).
Proof.
  intros Hout Hascii. unfold get_path_from_module, mbind, M_bind, bind.
  rewrite (module_show mod_ text w Hout Hascii). reflexivity.
Qed.

End RunnerFacts.

(** ** The tiers of path_from_text, one equation each *)

Section Tiers.

Variables (mod_ : string) (text : list string) (line : string).

Lemma path_tier1 :
  first_line_with ld_library_path text line ->
  path_from_text mod_ text = from_ld_library_path line.
Proof.
  intros H. unfold path_from_text.
  now rewrite (for_return_found _ _ _ _ H).
Qed.

Lemma path_tier2 :
  no_line_with ld_library_path text ->
  first_line_with (module_dir mod_) text line ->
  path_from_text mod_ text = from_module_dir line.
Proof.
  intros N1 H. unfold path_from_text.
  rewrite (for_return_absent _ _ _ N1). cbn [or_next].
  now rewrite (for_return_found _ _ _ _ H).
Qed.

Lemma path_tier3 :
  no_line_with ld_library_path text ->
  no_line_with (module_dir mod_) text ->
  first_line_with "-rpath/" text line ->
  path_from_text mod_ text = from_rpath line.
Proof.
  intros N1 N2 H. unfold path_from_text.
  rewrite (for_return_absent _ _ _ N1), (for_return_absent _ _ _ N2). cbn [or_next].
  now rewrite (for_return_found _ _ _ _ H).
Qed.

Lemma path_tier4 :
  no_line_with ld_library_path text ->
  no_line_with (module_dir mod_) text ->
  no_line_with "-rpath/" text ->
  first_line_with "-L/" text line ->
  path_from_text mod_ text = from_lib_dir line.
Proof.
  intros N1 N2 N3 H. unfold path_from_text.
  rewrite (for_return_absent _ _ _ N1), (for_return_absent _ _ _ N2),
    (for_return_absent _ _ _ N3). cbn [or_next].
  now rewrite (for_return_found _ _ _ _ H).
Qed.

Lemma path_tier5 :
  no_line_with ld_library_path text ->
  no_line_with (module_dir mod_) text ->
  no_line_with "-rpath/" text ->
  no_line_with "-L/" text ->
  first_line_with "PATH" text line ->
  path_from_text mod_ text = from_path line.
Proof.
  intros N1 N2 N3 N4 H. unfold path_from_text.
  rewrite (for_return_absent _ _ _ N1), (for_return_absent _ _ _ N2),
    (for_return_absent _ _ _ N3), (for_return_absent _ _ _ N4). cbn [or_next].
  now rewrite (for_return_found _ _ _ _ H).
Qed.

Lemma path_none :
  no_line_with ld_library_path text ->
  no_line_with (module_dir mod_) text ->
  no_line_with "-rpath/" text ->
  no_line_with "-L/" text ->
  no_line_with "PATH" text ->
  path_from_text mod_ text = Returns None.
Proof.
  intros N1 N2 N3 N4 N5. unfold path_from_text.
  now rewrite (for_return_absent _ _ _ N1), (for_return_absent _ _ _ N2),
    (for_return_absent _ _ _ N3), (for_return_absent _ _ _ N4),
    (for_return_absent _ _ _ N5).
Qed.

End Tiers.

(** A text of one line that contains [sub]. *)
Lemma first_line_single (sub line : string) :
  found sub line = true -> first_line_with sub [line] line.
Proof. intros H. exists [], []. repeat split; [constructor|assumption]. Qed.

(** ** get_argument_from_module_line *)

Lemma split_app_sep (c : ascii) (a b : string) :
  Py.split c (a ++ String c b) = (Py.split c a ++ Py.split c b)%list.
Proof.
  induction a as [|x a IH].
  - simpl. now rewrite Ascii.eqb_refl.
  - change (String x a ++ String c b) with (String x (a ++ String c b)).
    cbn [Py.split]. rewrite IH. destruct (Ascii.eqb x c); [reflexivity|].
    destruct (split_snoc c a) as (init & last & ->).
    destruct init; reflexivity.
Qed.

Lemma split_no_sep (c : ascii) (s : string) :
  Py.contains (Py.str1 c) s = false -> Py.split c s = [s].
Proof.
  induction s as [|a s IH]; intros H; [reflexivity|].
  rewrite contains_char_cons in H. apply orb_false_elim in H as [Ha Hs].
  simpl. now rewrite Ha, (IH Hs).
Qed.

Lemma lua_argument_of_split (line : string) (q : ascii) :
  Py.contains "(" line = true -> Py.contains ")" line = true ->
  (0 <= Py.find "," line)%Z ->
  first_quote (Py.slice_from line (Py.find "," line)) = Some q ->
  (exists init arg last, Py.split q line = (init ++ [arg; last])%list)
  /\ forall init arg last,
       Py.split q line = (init ++ [arg; last])%list ->
       get_argument_from_module_line line = Returns arg.
Proof.
  intros Hopen Hclose Hi Hq.
  destruct (first_quote_min _ _ Hq) as (qi & Hmin & Hat & n & Hn).
  rewrite slice_from_drop in Hn. apply find_opt_char_drop in Hn as [m Hm].
  split; [exact (split_two _ _ _ Hm)|].
  intros init arg last Hsplit. unfold get_argument_from_module_line.
  rewrite Hopen, Hclose, (find_index _ _ _ eq_refl Hi). cbn [andb rbind].
  rewrite Hmin, Hat. cbn [rbind]. rewrite Hsplit. apply getitem_penultimate.
Qed.

(** The segment between the last two occurrences of the separator. *)
Lemma split_between_last_two (q : ascii) (head arg tail : string) :
  Py.contains (Py.str1 q) arg = false -> Py.contains (Py.str1 q) tail = false ->
  Py.split q (head ++ String q (arg ++ String q tail))
  = (Py.split q head ++ [arg; tail])%list.
Proof.
  intros Harg Htail.
  now rewrite !split_app_sep, (split_no_sep _ _ Harg), (split_no_sep _ _ Htail).
Qed.

Lemma split_ws_blank (b : ascii) (s : string) :
  Py.isspace b = true -> Py.split_ws (String b s) = Py.split_ws s.
Proof. intros H. cbn [Py.split_ws]. now rewrite H. Qed.

Lemma split_ws_word_then (w rest : string) (b : ascii) :
  is_word w = true -> Py.isspace b = true ->
  Py.split_ws (w ++ String b rest) = w :: Py.split_ws rest.
Proof.
  intros Hw Hb. induction w as [|a w IH]; [discriminate|].
  cbn [is_word no_blank] in Hw. apply andb_prop in Hw as [Ha Hw].
  apply negb_true_iff in Ha.
  change (String a w ++ String b rest) with (String a (w ++ String b rest)).
  destruct w as [|c w].
  - change ("" ++ String b rest) with (String b rest).
    cbn [Py.split_ws]. now rewrite Ha, Hb.
  - specialize (IH Hw).
    change (String c w ++ String b rest) with (String c (w ++ String b rest)) in *.
    cbn [no_blank] in Hw. apply andb_prop in Hw as [Hc _].
    apply negb_true_iff in Hc.
    change (Py.split_ws (String a (String c (w ++ String b rest))))
      with (if Py.isspace a then Py.split_ws (String c (w ++ String b rest))
            else if Py.isspace c
                 then Py.str1 a :: Py.split_ws (String c (w ++ String b rest))
                 else match Py.split_ws (String c (w ++ String b rest)) with
                      | x :: xs => String a x :: xs
                      | [] => [Py.str1 a]
                      end).
    now rewrite Ha, Hc, IH.
Qed.

Lemma split_ws_word (w : string) : is_word w = true -> Py.split_ws w = [w].
Proof.
  intros Hw. induction w as [|a w IH]; [discriminate|].
  cbn [is_word no_blank] in Hw. apply andb_prop in Hw as [Ha Hw].
  apply negb_true_iff in Ha. destruct w as [|c w].
  - cbn [Py.split_ws]. now rewrite Ha.
  - specialize (IH Hw). cbn [no_blank] in Hw. apply andb_prop in Hw as [Hc _].
    apply negb_true_iff in Hc.
    change (Py.split_ws (String a (String c w)))
      with (if Py.isspace a then Py.split_ws (String c w)
            else if Py.isspace c then Py.str1 a :: Py.split_ws (String c w)
                 else match Py.split_ws (String c w) with
                      | x :: xs => String a x :: xs
                      | [] => [Py.str1 a]
                      end).
    now rewrite Ha, Hc, IH.
Qed.

(** Words joined by single spaces split back into those words. *)
Lemma split_ws_join (ws : list string) :
  List.Forall (fun w => is_word w = true) ws ->
  Py.split_ws (Py.join " " ws) = ws.
Proof.
  intros H. induction H as [|w ws Hw Hws IH]; [reflexivity|].
  destruct ws as [|w' ws]; [now apply split_ws_word|].
  change (Py.join " " (w :: w' :: ws)) with (w ++ String " " (Py.join " " (w' :: ws))).
  now rewrite (split_ws_word_then w _ " "%char Hw eq_refl), IH.
Qed.

(** C4. On a line with both parentheses, with [i] the position of its
    first comma and [q] the quote character met first from that comma
    on, the line split on [q] has at least two segments and
    get_argument_from_module_line returns the one before the last:
    what stands between the last two [q] of the line. In particular,
    when [module show] prints the Lua line that sets LD_LIBRARY_PATH to
    /opt/foo/2.0/lib64, get_path_from_module returns /opt/foo/2.0. *)
Theorem lua_argument_is_penultimate_segment :
  (forall (line : string) (i : Z) (q : ascii),
      Py.contains "(" line = true -> Py.contains ")" line = true ->
      Py.find "," line = i -> (0 <= i)%Z ->
      first_quote (Py.slice_from line i) = Some q ->
      exists init arg last,
        Py.split q line = (init ++ [arg; last])%list
        /\ get_argument_from_module_line line = Returns arg)
  /\
  (forall (head arg tail : string) (q : ascii),
      let line := head ++ String q (arg ++ String q tail) in
      Py.contains "(" line = true -> Py.contains ")" line = true ->
      (0 <= Py.find "," line)%Z ->
      first_quote (Py.slice_from line (Py.find "," line)) = Some q ->
      Py.contains (Py.str1 q) arg = false ->
      Py.contains (Py.str1 q) tail = false ->
      get_argument_from_module_line line = Returns arg)
  /\
  (forall popen json_loads mod_ w,
      stdout (popen w (show_cmd mod_)) = lua_line ->
      fst (get_path_from_module popen json_loads mod_ w)
      = Returns (Some "/opt/foo/2.0")).
Proof.
  split; [|split].
  - intros line i q Hopen Hclose <- Hi Hq.
    destruct (lua_argument_of_split _ _ Hopen Hclose Hi Hq)
      as [(init & arg & last & Hsplit) Hget].
    exists init, arg, last. split; [assumption|]. now apply (Hget init arg last).
  - intros head arg tail q line Hopen Hclose Hi Hq Harg Htail.
    destruct (lua_argument_of_split _ _ Hopen Hclose Hi Hq) as [_ Hget].
    apply (Hget (Py.split q head) arg tail).
    now apply split_between_last_two.
  - intros popen json_loads mod_ w Hout.
    rewrite (get_path_from_module_text _ _ _ _ _ Hout eq_refl). cbn [fst].
    rewrite (path_tier1 mod_ _ lua_line); [reflexivity|].
    now apply first_line_single.
Qed.

Lemma lua_argument_witness :
  exists init arg last,
    Py.split Py.dq lua_line = (init ++ [arg; last])%list
    /\ get_argument_from_module_line lua_line = Returns arg.
Proof.
  apply (proj1 lua_argument_is_penultimate_segment lua_line 24%Z Py.dq);
    [reflexivity|reflexivity|reflexivity|lia|reflexivity].
Defined.

(** C5. On a line that does not have both parentheses,
    get_argument_from_module_line returns the third blank-separated
    word, the one at index 2: for words joined by spaces, the third of
    them. In particular, when [module show] prints the TCL line that
    sets LD_LIBRARY_PATH to /opt/foo/2.0/lib, get_path_from_module
    returns /opt/foo/2.0. *)
Theorem tcl_argument_is_third_word :
  (forall (line word : string),
      Py.contains "(" line && Py.contains ")" line = false ->
      nth_error (Py.split_ws line) 2 = Some word ->
      get_argument_from_module_line line = Returns word)
  /\
  (forall (ws : list string) (word : string),
      List.Forall (fun w => is_word w = true) ws ->
      nth_error ws 2 = Some word ->
      let line := Py.join " " ws in
      Py.contains "(" line && Py.contains ")" line = false ->
      get_argument_from_module_line line = Returns word)
  /\
  (forall popen json_loads mod_ w,
      stdout (popen w (show_cmd mod_)) = tcl_line ->
      fst (get_path_from_module popen json_loads mod_ w)
      = Returns (Some "/opt/foo/2.0")).
Proof.
  assert (Hthird : forall line word,
             Py.contains "(" line && Py.contains ")" line = false ->
             nth_error (Py.split_ws line) 2 = Some word ->
             get_argument_from_module_line line = Returns word).
  { intros line word Htcl Hword. unfold get_argument_from_module_line.
    rewrite Htcl. apply (getitem_nth_error _ 2 _ Hword). }
  split; [exact Hthird|split].
  - intros ws word Hws Hword line Htcl. apply Hthird; [assumption|].
    unfold line. now rewrite (split_ws_join _ Hws).
  - intros popen json_loads mod_ w Hout.
    rewrite (get_path_from_module_text _ _ _ _ _ Hout eq_refl). cbn [fst].
    rewrite (path_tier1 mod_ _ tcl_line); [reflexivity|].
    now apply first_line_single.
Qed.

Lemma tcl_argument_witness :
  get_argument_from_module_line tcl_line = Returns "/opt/foo/2.0/lib".
Proof.
  apply (proj1 tcl_argument_is_third_word tcl_line "/opt/foo/2.0/lib");
    reflexivity.
Defined.

Lemma unquoted_lua_line_raises (line : string) :
  unquoted_lua_line line ->
  get_argument_from_module_line line = Raises no_lua_quote.
Proof.
  intros (Hopen & Hclose & Hi & Hd & Hs). unfold get_argument_from_module_line.
  rewrite Hopen, Hclose, (find_index _ _ _ eq_refl Hi). cbn [andb rbind].
  now rewrite quote_positions_eq, Hd, Hs.
Qed.

(** C6. On a line of the Lua shape in which neither quote character
    appears from the first comma on, get_argument_from_module_line
    raises the ValueError that says no Lua quote symbol was found; and
    when such a line is the one a tier of get_path_from_module that
    reads an argument (LD_LIBRARY_PATH, the module's _DIR, PATH)
    selects, get_path_from_module raises that error: it neither
    returns None nor goes on to a later tier. *)
Theorem unquoted_lua_line_is_an_error :
  (forall line : string,
      unquoted_lua_line line ->
      get_argument_from_module_line line = Raises no_lua_quote)
  /\
  (forall popen json_loads mod_ w text line,
      stdout (popen w (show_cmd mod_)) = text -> is_ascii text = true ->
      unquoted_lua_line line ->
      let lines := Py.split Py.nl text in
      first_line_with ld_library_path lines line
      \/ (no_line_with ld_library_path lines
          /\ first_line_with (module_dir mod_) lines line)
      \/ (no_line_with ld_library_path lines
          /\ no_line_with (module_dir mod_) lines
          /\ no_line_with "-rpath/" lines
          /\ no_line_with "-L/" lines
          /\ first_line_with "PATH" lines line) ->
      fst (get_path_from_module popen json_loads mod_ w) = Raises no_lua_quote).
Proof.
  split; [exact unquoted_lua_line_raises|].
  intros popen json_loads mod_ w text line Hout Hascii Hline lines Hsel.
  rewrite (get_path_from_module_text _ _ _ _ _ Hout Hascii). cbn [fst].
  fold lines. apply unquoted_lua_line_raises in Hline.
  destruct Hsel as [H1|[[N1 H2]|(N1 & N2 & N3 & N4 & H5)]].
  - rewrite (path_tier1 _ _ _ H1). unfold from_ld_library_path. now rewrite Hline.
  - rewrite (path_tier2 _ _ _ N1 H2). unfold from_module_dir. now rewrite Hline.
  - rewrite (path_tier5 _ _ _ N1 N2 N3 N4 H5). unfold from_path. now rewrite Hline.
Qed.

Lemma bare_lua_line_unquoted : unquoted_lua_line bare_lua_line.
Proof. repeat split; try reflexivity. vm_compute. discriminate. Defined.

Lemma unquoted_lua_line_witness :
  get_argument_from_module_line bare_lua_line = Raises no_lua_quote.
Proof.
  apply (proj1 unquoted_lua_line_is_an_error bare_lua_line).
  exact bare_lua_line_unquoted.
Defined.

(** ** Priority of the tiers *)

(** C7. get_path_from_module tries its five tiers in order over the
    lines of the text: LD_LIBRARY_PATH first, then the upper-cased
    module name followed by _DIR, then -rpath/, then -L/, then PATH.
    A tier is reached only when no line matches an earlier one, and it
    answers from its first matching line. The _DIR tier returns the
    argument of the line as it is; with no matching line at all the
    result is None, not an error. So a text with a FOO_DIR line and an
    LD_LIBRARY_PATH line gives the LD_LIBRARY_PATH path, and a text
    with only [setenv FOO_DIR /opt/foo/2.0] gives /opt/foo/2.0. *)
Theorem tiers_in_priority_order :
  (forall popen json_loads mod_ w text,
      stdout (popen w (show_cmd mod_)) = text -> is_ascii text = true ->
      let lines := Py.split Py.nl text in
      let r := fst (get_path_from_module popen json_loads mod_ w) in
      (forall line, first_line_with ld_library_path lines line ->
                    r = from_ld_library_path line)
      /\ (no_line_with ld_library_path lines ->
          (forall line, first_line_with (module_dir mod_) lines line ->
                        r = rbind (get_argument_from_module_line line)
                              (fun path => Returns (Some path)))
          /\ (no_line_with (module_dir mod_) lines ->
              (forall line, first_line_with "-rpath/" lines line ->
                            r = from_rpath line)
              /\ (no_line_with "-rpath/" lines ->
                  (forall line, first_line_with "-L/" lines line ->
                                r = from_lib_dir line)
                  /\ (no_line_with "-L/" lines ->
                      (forall line, first_line_with "PATH" lines line ->
                                    r = from_path line)
                      /\ (no_line_with "PATH" lines -> r = Returns None))))))
  /\
  (forall popen json_loads w,
      stdout (popen w (show_cmd "foo")) = dir_then_ld_text ->
      fst (get_path_from_module popen json_loads "foo" w)
      = Returns (Some "/opt/bar/1.0"))
  /\
  (forall popen json_loads w,
      stdout (popen w (show_cmd "foo")) = "setenv FOO_DIR /opt/foo/2.0" ->
      fst (get_path_from_module popen json_loads "foo" w)
      = Returns (Some "/opt/foo/2.0")).
Proof.
  split; [|split].
  - intros popen json_loads mod_ w text Hout Hascii lines r. subst r.
    rewrite (get_path_from_module_text _ _ _ _ _ Hout Hascii). cbn [fst].
    fold lines. split; [intros line H1; now apply path_tier1|].
    intros N1. split; [intros line H2; now apply path_tier2|].
    intros N2. split; [intros line H3; now apply path_tier3|].
    intros N3. split; [intros line H4; now apply path_tier4|].
    intros N4. split; [intros line H5; now apply path_tier5|].
    intros N5. now apply path_none.
  - intros popen json_loads w Hout.
    rewrite (get_path_from_module_text _ _ _ _ _ Hout eq_refl). reflexivity.
  - intros popen json_loads w Hout.
    rewrite (get_path_from_module_text _ _ _ _ _ Hout eq_refl). reflexivity.
Qed.

Lemma tiers_in_priority_order_witness :
  fst (get_path_from_module (sh_const dir_then_ld_text 0) no_json "foo" w0)
  = from_ld_library_path "setenv LD_LIBRARY_PATH /opt/bar/1.0/lib".
Proof.
  apply (proj1 tiers_in_priority_order
           (sh_const dir_then_ld_text 0) no_json "foo" w0 dir_then_ld_text
           eq_refl eq_refl).
  exists ["setenv FOO_DIR /opt/foo/2.0"], [].
  repeat split; [repeat constructor].
Defined.

(** ** The -rpath/ tier *)

(** C8. On [cc -rpath/opt/foo/3.1/lib -o out] get_path_from_module
    returns /opt/foo/3.1, the text from 6 characters after the match up
    to the /lib that follows. On
    [cc -L/usr/lib -rpath/opt/foo/3.1/lib -o out] the same tier answers
    (there is no earlier tier's marker, and -rpath/ goes before -L/) but
    returns the empty string: the end of the slice is the first /lib of
    the whole line, which here lies before the match. *)
Theorem rpath_truncates_at_first_lib_of_line :
  fst (get_path_from_module (sh_const rpath_text 0) no_json "foo" w0)
  = Returns (Some "/opt/foo/3.1")
  /\ Py.find "-rpath/" lib_before_rpath_text = 14%Z
  /\ Py.find "/lib" lib_before_rpath_text = 9%Z
  /\ Py.slice_from lib_before_rpath_text (14 + 6) = "/opt/foo/3.1/lib -o out"
  /\ fst (get_path_from_module (sh_const lib_before_rpath_text 0) no_json "foo" w0)
     = Returns (Some "").
Proof. repeat split. Qed.

(** ** Truncation when the marker is absent *)

Lemma without_last_snoc (p : string) (c : ascii) :
  without_last (p ++ Py.str1 c) = p.
Proof.
  induction p as [|a p IH]; [reflexivity|].
  change (String a p ++ Py.str1 c) with (String a (p ++ Py.str1 c)).
  destruct (p ++ Py.str1 c) as [|b t] eqn:E; [now destruct p|].
  change (without_last (String a (String b t)))
    with (String a (without_last (String b t))).
  now rewrite IH.
Qed.

Lemma take_without_last (s : string) :
  Py.take (String.length s - 1) s = without_last s.
Proof.
  induction s as [|a s IH]; [reflexivity|].
  cbn [String.length]. replace (S (String.length s) - 1)%nat with (String.length s) by lia.
  destruct s as [|b s]; [reflexivity|].
  cbn [String.length Py.take without_last]. f_equal.
  cbn [String.length] in IH. now replace (S (String.length s) - 1)%nat
    with (String.length s) in IH by lia.
Qed.

(** A slice up to the [-1] of a failed [find] drops the last character. *)
Lemma slice_to_not_found (sub s : string) :
  Py.contains sub s = false ->
  Py.slice_to s (Py.find sub s) = without_last s.
Proof.
  intros H. apply contains_false_find_opt in H.
  unfold Py.slice_to, Py.find. rewrite H. unfold Py.clamp, Py.len.
  replace (-1 <? 0)%Z with true by reflexivity.
  replace (Z.to_nat (Z.max (-1 + Z.of_nat (String.length s)) 0))
    with (String.length s - 1)%nat by lia.
  apply take_without_last.
Qed.

(** C10. When the argument read by the LD_LIBRARY_PATH tier does not
    contain /lib, get_path_from_module returns that argument without
    its last character, and so does the PATH tier for an argument that
    does not contain /bin: the argument is not returned whole. *)
Theorem absent_marker_drops_last_character :
  (forall popen json_loads mod_ w text line arg,
      stdout (popen w (show_cmd mod_)) = text -> is_ascii text = true ->
      first_line_with ld_library_path (Py.split Py.nl text) line ->
      get_argument_from_module_line line = Returns arg ->
      Py.contains "/lib" arg = false ->
      fst (get_path_from_module popen json_loads mod_ w)
      = Returns (Some (without_last arg))
      /\ forall p c, arg = p ++ Py.str1 c ->
           fst (get_path_from_module popen json_loads mod_ w) = Returns (Some p))
  /\
  (forall popen json_loads mod_ w text line arg,
      stdout (popen w (show_cmd mod_)) = text -> is_ascii text = true ->
      let lines := Py.split Py.nl text in
      no_line_with ld_library_path lines ->
      no_line_with (module_dir mod_) lines ->
      no_line_with "-rpath/" lines ->
      no_line_with "-L/" lines ->
      first_line_with "PATH" lines line ->
      get_argument_from_module_line line = Returns arg ->
      Py.contains "/bin" arg = false ->
      fst (get_path_from_module popen json_loads mod_ w)
      = Returns (Some (without_last arg))
      /\ forall p c, arg = p ++ Py.str1 c ->
           fst (get_path_from_module popen json_loads mod_ w) = Returns (Some p)).
Proof.
  split.
  - intros popen json_loads mod_ w text line arg Hout Hascii H1 Harg Hlib.
    rewrite (get_path_from_module_text _ _ _ _ _ Hout Hascii). cbn [fst].
    rewrite (path_tier1 _ _ _ H1). unfold from_ld_library_path.
    rewrite Harg. cbn [rbind]. rewrite (slice_to_not_found _ _ Hlib).
    split; [reflexivity|]. intros p c ->. now rewrite without_last_snoc.
  - intros popen json_loads mod_ w text line arg Hout Hascii lines
      N1 N2 N3 N4 H5 Harg Hbin.
    rewrite (get_path_from_module_text _ _ _ _ _ Hout Hascii). cbn [fst].
    fold lines. rewrite (path_tier5 _ _ _ N1 N2 N3 N4 H5). unfold from_path.
    rewrite Harg. cbn [rbind]. rewrite (slice_to_not_found _ _ Hbin).
    split; [reflexivity|]. intros p c ->. now rewrite without_last_snoc.
Qed.

Lemma absent_marker_witness :
  fst (get_path_from_module (sh_const "setenv LD_LIBRARY_PATH /opt/foo/2.0" 0)
         no_json "foo" w0)
  = Returns (Some "/opt/foo/2.").
Proof.
  apply (proj1 absent_marker_drops_last_character
           (sh_const "setenv LD_LIBRARY_PATH /opt/foo/2.0" 0) no_json "foo" w0
           "setenv LD_LIBRARY_PATH /opt/foo/2.0"
           "setenv LD_LIBRARY_PATH /opt/foo/2.0" "/opt/foo/2.0"
           eq_refl eq_refl
           (first_line_single ld_library_path
              "setenv LD_LIBRARY_PATH /opt/foo/2.0" eq_refl)
           eq_refl eq_refl).
Defined.

(** ** The last line of the captured output *)

Lemma getitem_split_last (c : ascii) (s : string) :
  Py.getitem (Py.split c s) (-1) = Returns (List.last (Py.split c s) "").
Proof.
  destruct (split_snoc c s) as (init & last & ->).
  now rewrite getitem_last, List.last_last.
Qed.

Lemma lstrip_blank_app (a b : string) :
  all_blank a = true -> Py.lstrip (a ++ b) = Py.lstrip b.
Proof.
  induction a as [|c a IH]; intros H; [reflexivity|].
  simpl in H. apply andb_prop in H as [Hc Ha]. simpl. rewrite Hc. now apply IH.
Qed.

Lemma lstrip_app (a b : string) :
  all_blank a = false -> Py.lstrip (a ++ b) = Py.lstrip a ++ b.
Proof.
  induction a as [|c a IH]; intros H; [discriminate|].
  simpl in H. simpl. destruct (Py.isspace c); [now apply IH|reflexivity].
Qed.

Lemma lstrip_nonblank (c : ascii) (s : string) :
  Py.isspace c = false -> Py.lstrip (String c s) = String c s.
Proof. intros H. simpl. now rewrite H. Qed.

Lemma rstrip_blank (b : string) : all_blank b = true -> Py.rstrip b = "".
Proof.
  induction b as [|c b IH]; intros H; [reflexivity|].
  simpl in H. apply andb_prop in H as [Hc Hb]. simpl. now rewrite (IH Hb), Hc.
Qed.

Lemma rstrip_app_blank (a b : string) :
  all_blank b = true -> Py.rstrip (a ++ b) = Py.rstrip a.
Proof.
  intros Hb. induction a as [|c a IH]; [now apply rstrip_blank|].
  simpl. now rewrite IH.
Qed.

Lemma rstrip_snoc_nonblank (a : string) (c : ascii) :
  Py.isspace c = false -> Py.rstrip (a ++ Py.str1 c) = a ++ Py.str1 c.
Proof.
  intros Hc. induction a as [|x a IH]; [simpl; now rewrite Hc|].
  change (String x a ++ Py.str1 c) with (String x (a ++ Py.str1 c)).
  cbn [Py.rstrip]. rewrite IH. now destruct a.
Qed.

Lemma append_assoc (a b c : string) : (a ++ b) ++ c = a ++ (b ++ c).
Proof.
  induction a as [|x a IH]; [reflexivity|].
  change (String x ((a ++ b) ++ c) = String x (a ++ (b ++ c))). now f_equal.
Qed.

Lemma split_last_payload (a p : string) :
  Py.contains (Py.str1 Py.nl) p = false ->
  List.last (Py.split Py.nl (a ++ String Py.nl p)) "" = p.
Proof.
  intros Hp. rewrite split_app_sep, (split_no_sep _ _ Hp).
  apply List.last_last.
Qed.

(** Whatever the command printed before it, and whatever blanks follow
    it, a payload line at the end of the output is the last line. *)
Lemma last_line_payload (noise p trailer : string) :
  payload_line p -> all_blank trailer = true ->
  last_line (noise ++ String Py.nl (p ++ trailer)) = p
  /\ last_line (p ++ trailer) = p.
Proof.
  intros (Hnl & (c0 & t & Hhead & Hc0) & (u & c1 & Htail & Hc1)) Htr.
  assert (Hstrip : Py.strip (p ++ trailer) = p).
  { unfold Py.strip. rewrite Hhead at 1.
    change (String c0 t ++ trailer) with (String c0 (t ++ trailer)).
    rewrite (lstrip_nonblank _ _ Hc0).
    change (String c0 (t ++ trailer)) with (String c0 t ++ trailer).
    rewrite <- Hhead, (rstrip_app_blank _ _ Htr), Htail.
    now apply rstrip_snoc_nonblank. }
  split.
  - unfold last_line. destruct (all_blank noise) eqn:Hnoise.
    + unfold Py.strip. rewrite (lstrip_blank_app _ _ Hnoise).
      change (Py.lstrip (String Py.nl (p ++ trailer)))
        with (Py.lstrip (p ++ trailer)).
      fold (Py.strip (p ++ trailer)). rewrite Hstrip.
      now rewrite (split_no_sep _ _ Hnl).
    + unfold Py.strip. rewrite (lstrip_app _ _ Hnoise).
      replace (Py.lstrip noise ++ String Py.nl (p ++ trailer))
        with ((Py.lstrip noise ++ String Py.nl u) ++ Py.str1 c1 ++ trailer).
      * rewrite <- append_assoc, (rstrip_app_blank _ _ Htr),
          (rstrip_snoc_nonblank _ _ Hc1), append_assoc.
        change (String Py.nl u ++ Py.str1 c1) with (String Py.nl (u ++ Py.str1 c1)).
        rewrite <- Htail. now apply split_last_payload.
      * rewrite append_assoc. f_equal.
        change (String Py.nl u ++ Py.str1 c1 ++ trailer)
          with (String Py.nl (u ++ Py.str1 c1 ++ trailer)).
        now rewrite <- append_assoc, <- Htail.
  - unfold last_line. rewrite Hstrip. now rewrite (split_no_sep _ _ Hnl).
Qed.

(** ** Running a command that changes the environment *)

Lemma assign_items_strings (kvs : list (string * string)) (w : World) :
  assign_items (List.map (fun kv => (fst kv, JString (snd kv))) kvs) w
  = (Returns tt, {| environ := set_all (environ w) kvs; spawned := spawned w |}).
Proof.
  revert w. induction kvs as [|[k v] kvs IH]; intros w; [now destruct w|].
  cbn [List.map assign_items fst snd].
  unfold mbind, M_bind, bind. cbn [environ_setitem]. now rewrite IH.
Qed.

Lemma set_all_empty (kvs : list (string * string)) :
  set_all ∅ kvs = list_to_map (reverse kvs).
Proof.
  unfold set_all. induction kvs as [|[k v] kvs IH] using rev_ind; [reflexivity|].
  now rewrite foldl_snoc, reverse_snoc, list_to_map_cons, IH.
Qed.

Lemma environ_update_snapshot (kvs : list (string * string)) (w : World) :
  environ_update (snapshot kvs) w
  = (Returns tt, {| environ := set_all (environ w) kvs; spawned := spawned w |}).
Proof.
  unfold environ_update, snapshot. destruct kvs as [|kv kvs].
  - now destruct w.
  - exact (assign_items_strings (kv :: kvs) w).
Qed.

Section ChangeFacts.

Variable popen : World -> string -> Completed.
Variable json_loads : string -> option json.

(** The mutating branch, as one equation. *)
Lemma module_change (tok : string) (rest : list string) (w : World) :
  list_contains tok module_change_commands = true ->
  module popen json_loads (tok :: rest) w
  = let w1 := logged (change_cmd (tok :: rest)) w in
    match json_loads (last_line (stdout (popen w (change_cmd (tok :: rest))))) with
    | None => (Raises not_json, w1)
    | Some env_dict => (environ_clear;; environ_update env_dict;; ret None) w1
    end.
Proof.
  intros Htok. unfold module. unfold mbind at 1, M_bind at 1, bind at 1, lift at 1.
  rewrite getitem_head, Htok.
  unfold mbind at 1, M_bind at 1, bind at 1, Popen_communicate at 1.
  fold (change_cmd (tok :: rest)). fold (logged (change_cmd (tok :: rest)) w).
  unfold mbind at 1, M_bind at 1, bind at 1, lift at 1.
  rewrite getitem_split_last. fold (last_line (stdout (popen w (change_cmd (tok :: rest))))).
  unfold mbind at 1, M_bind at 1, bind at 1, loads.
  destruct (json_loads _); reflexivity.
Qed.

End ChangeFacts.

(** C1, as the code has it. For a command that changes the environment
    (first token load, swap, unload, purge, use or unuse), when the last
    line of the captured output decodes to a mapping from strings to
    strings, [module] replaces the process environment by exactly that
    mapping (variables that are not in it are gone, and of two items
    with one name the later stands) and returns None; the shell line it
    ran is the only one added to the log. *)
Theorem change_replaces_environ_and_returns_none :
  forall popen json_loads tok rest w kvs,
    list_contains tok module_change_commands = true ->
    json_loads (last_line (stdout (popen w (change_cmd (tok :: rest)))))
    = Some (snapshot kvs) ->
    let r := module popen json_loads (tok :: rest) w in
    fst r = Returns None
    /\ environ (snd r) = list_to_map (reverse kvs)
    /\ (forall name, name ∉ kvs.*1 -> environ (snd r) !! name = None)
    /\ spawned (snd r) = (spawned w ++ [change_cmd (tok :: rest)])%list.
Proof.
  intros popen json_loads tok rest w kvs Htok Hloads r. subst r.
  rewrite (module_change _ _ _ _ _ Htok), Hloads. cbv zeta.
  unfold mbind, M_bind, bind, environ_clear.
  rewrite environ_update_snapshot. cbn [fst snd environ spawned ret logged].
  rewrite set_all_empty. repeat split.
  intros name Hname. apply not_elem_of_list_to_map.
  intros Hin. apply Hname. now rewrite fmap_reverse, elem_of_reverse in Hin.
Qed.

Lemma change_replaces_environ_witness :
  let r := module (sh_const banner_output 0) loads_snapshot_line ["load"; "gcc"] w0 in
  fst r = Returns None
  /\ environ (snd r) = list_to_map (reverse [("FOO", "bar")])
  /\ (forall name, name ∉ [("FOO", "bar")].*1 ->
                   environ (snd r) !! name = None)
  /\ spawned (snd r) = (spawned w0 ++ [change_cmd ["load"; "gcc"]])%list.
Proof.
  apply (change_replaces_environ_and_returns_none
           (sh_const banner_output 0) loads_snapshot_line "load" ["gcc"] w0
           [("FOO", "bar")]); reflexivity.
Defined.

(** C1, as the design document states it, fails: [module load gcc]
    returns None, not the mapping, and the environment of the caller,
    which held BAZ, afterwards holds FOO and no BAZ. *)
Lemma change_returns_no_snapshot :
  let r := module (sh_const banner_output 0) loads_snapshot_line ["load"; "gcc"] w0 in
  fst r = Returns None
  /\ environ w0 !! "BAZ" = Some "1"
  /\ environ (snd r) !! "BAZ" = None
  /\ environ (snd r) !! "FOO" = Some "bar"
  /\ environ (snd r) <> environ w0.
Proof.
  repeat split; try reflexivity.
  intros H. apply (f_equal (fun m => m !! "BAZ")) in H. vm_compute in H. discriminate.
Qed.

(** C2. For an invocation whose first token is none of load, swap,
    unload, purge, use, unuse, [module] runs one shell line, the
    command with its standard error joined to its standard output, and
    leaves the environment alone; its result is the decoding of exactly
    the bytes captured (those bytes themselves when they are 7-bit),
    nothing trimmed; and the exit status plays no part: a shell that
    prints the same bytes gives the same result whatever status it
    exits with. *)
Theorem read_only_returns_captured_text :
  forall popen json_loads tok rest w,
    list_contains tok module_change_commands = false ->
    let cmd := "module " ++ Py.join " " (tok :: rest) ++ " 2>&1" in
    let out := stdout (popen w cmd) in
    let r := module popen json_loads (tok :: rest) w in
    spawned (snd r) = (spawned w ++ [cmd])%list
    /\ environ (snd r) = environ w
    /\ fst r = rbind (decode out) (fun text => Returns (Some text))
    /\ (is_ascii out = true -> fst r = Returns (Some out))
    /\ (forall popen',
           stdout (popen' w cmd) = out ->
           module popen' json_loads (tok :: rest) w = r).
Proof.
  intros popen json_loads tok rest w Htok cmd out r. subst r.
  rewrite (module_read_only _ _ _ _ _ Htok). fold (read_cmd (tok :: rest)) in *.
  cbn [fst snd logged spawned environ]. repeat split.
  - intros Hascii. subst out cmd. unfold decode. now rewrite Hascii.
  - intros popen' Hout. rewrite (module_read_only _ _ _ _ _ Htok).
    subst out cmd. now rewrite Hout.
Qed.

Lemma read_only_witness :
  module (sh_const usage_text 1) no_json ["show"; "gcc"] w0
  = module (sh_const usage_text 0) no_json ["show"; "gcc"] w0
  /\ fst (module (sh_const usage_text 0) no_json ["show"; "gcc"] w0)
     = Returns (Some usage_text).
Proof.
  pose proof (read_only_returns_captured_text
                (sh_const usage_text 0) no_json "show" ["gcc"] w0 eq_refl)
    as (_ & _ & _ & Hout & Hstatus).
  split; [exact (Hstatus (sh_const usage_text 1) eq_refl)|exact (Hout eq_refl)].
Defined.

(** C3. For a command that changes the environment, the captured output
    is stripped of the blanks at its ends and split into lines; that
    list is never empty, and its last element alone is given to
    [json.loads]: when that is not JSON the call raises, and otherwise
    the call goes on with the decoded value, so the earlier lines have
    no effect. A payload line at the end of the output, whatever was
    printed before it, is that last line. *)
Theorem snapshot_is_last_line :
  (forall popen json_loads tok rest w,
      list_contains tok module_change_commands = true ->
      let out := stdout (popen w (change_cmd (tok :: rest))) in
      let w1 := logged (change_cmd (tok :: rest)) w in
      let r := module popen json_loads (tok :: rest) w in
      (exists init, Py.split Py.nl (Py.strip out) = (init ++ [last_line out])%list)
      /\ (json_loads (last_line out) = None -> r = (Raises not_json, w1))
      /\ (forall v, json_loads (last_line out) = Some v ->
                    r = (environ_clear;; environ_update v;; ret None) w1))
  /\
  (forall noise p trailer,
      payload_line p -> all_blank trailer = true ->
      last_line (noise ++ String Py.nl (p ++ trailer)) = p
      /\ last_line (p ++ trailer) = p).
Proof.
  split; [|exact last_line_payload].
  intros popen json_loads tok rest w Htok out w1 r. subst r.
  rewrite (module_change _ _ _ _ _ Htok). fold out. fold w1. cbv zeta.
  split; [|split].
  - unfold last_line. destruct (split_snoc Py.nl (Py.strip out)) as (init & l & ->).
    exists init. now rewrite List.last_last.
  - now intros ->.
  - now intros v ->.
Qed.

Lemma snapshot_is_last_line_witness :
  module (sh_const "ModuleCmd_Load.c(213):ERROR:105: Unable to locate gcc" 1)
    no_json ["load"; "gcc"] w0
  = (Raises not_json, logged (change_cmd ["load"; "gcc"]) w0).
Proof.
  apply (proj1 snapshot_is_last_line
           (sh_const "ModuleCmd_Load.c(213):ERROR:105: Unable to locate gcc" 1)
           no_json "load" ["gcc"] w0 eq_refl); reflexivity.
Defined.

(** C9. For a command that changes the environment whose last output
    line is not JSON, [module] raises the decoder's ValueError and the
    process environment is what it was before the call: the decoding
    comes before the clearing. *)
Theorem failed_decode_keeps_environ :
  forall popen json_loads tok rest w,
    list_contains tok module_change_commands = true ->
    json_loads (last_line (stdout (popen w (change_cmd (tok :: rest))))) = None ->
    let r := module popen json_loads (tok :: rest) w in
    fst r = Raises not_json /\ environ (snd r) = environ w.
Proof.
  intros popen json_loads tok rest w Htok Hloads r. subst r.
  rewrite (module_change _ _ _ _ _ Htok), Hloads. now split.
Qed.

Lemma failed_decode_witness :
  let r := module (sh_const "module: command not found" 127)
             loads_snapshot_line ["unload"; "gcc"] w0 in
  fst r = Raises not_json /\ environ (snd r) = environ w0.
Proof.
  apply (failed_decode_keeps_environ
           (sh_const "module: command not found" 127)
           loads_snapshot_line "unload" ["gcc"] w0); reflexivity.
Defined.

(** * Further properties *)

(** ** Errors of get_argument_from_module_line *)

Lemma getitem_out_of_range {A} (l : list A) (i : Z) :
  (Z.of_nat (List.length l) <= i)%Z -> Py.getitem l i = Raises IndexError.
Proof. intros H. unfold Py.getitem. index_bounds. now rewrite andb_false_r. Qed.

Lemma lua_line_without_comma (line : string) :
  Py.contains "(" line = true -> Py.contains ")" line = true ->
  Py.contains "," line = false ->
  get_argument_from_module_line line = Raises no_comma.
Proof.
  intros Hopen Hclose Hcomma. unfold get_argument_from_module_line, Py.index.
  rewrite Hopen, Hclose. unfold Py.contains in Hcomma. now rewrite Hcomma.
Qed.

(** X1. On a line with both parentheses and no comma,
    get_argument_from_module_line raises the ValueError of [index]
    (substring not found), which is not the one for a missing quote;
    when the LD_LIBRARY_PATH tier selects such a line,
    get_path_from_module raises it too. *)
Theorem lua_line_without_comma_raises :
  (forall line : string,
      Py.contains "(" line = true -> Py.contains ")" line = true ->
      Py.contains "," line = false ->
      get_argument_from_module_line line = Raises no_comma
      /\ no_comma <> no_lua_quote)
  /\
  (forall popen json_loads mod_ w text line,
      stdout (popen w (show_cmd mod_)) = text -> is_ascii text = true ->
      Py.contains "(" line = true -> Py.contains ")" line = true ->
      Py.contains "," line = false ->
      first_line_with ld_library_path (Py.split Py.nl text) line ->
      fst (get_path_from_module popen json_loads mod_ w) = Raises no_comma).
Proof.
  split.
  - intros line Hopen Hclose Hcomma.
    split; [now apply lua_line_without_comma|discriminate].
  - intros popen json_loads mod_ w text line Hout Hascii Hopen Hclose Hcomma H1.
    rewrite (get_path_from_module_text _ _ _ _ _ Hout Hascii). cbn [fst].
    rewrite (path_tier1 _ _ _ H1). unfold from_ld_library_path.
    now rewrite (lua_line_without_comma _ Hopen Hclose Hcomma).
Qed.

Lemma lua_line_without_comma_witness :
  fst (get_path_from_module (sh_const whatis_line 0) no_json "foo" w0)
  = Raises no_comma.
Proof.
  apply (proj2 lua_line_without_comma_raises
           (sh_const whatis_line 0) no_json "foo" w0 whatis_line whatis_line);
    try reflexivity.
  apply first_line_single. reflexivity.
Defined.

(** X2. On a line without both parentheses that has fewer than three
    words, get_argument_from_module_line raises IndexError; when the
    LD_LIBRARY_PATH tier selects such a line, so does
    get_path_from_module. *)
Theorem short_tcl_line_raises :
  (forall line : string,
      Py.contains "(" line && Py.contains ")" line = false ->
      (List.length (Py.split_ws line) < 3)%nat ->
      get_argument_from_module_line line = Raises IndexError)
  /\
  (forall popen json_loads mod_ w text line,
      stdout (popen w (show_cmd mod_)) = text -> is_ascii text = true ->
      Py.contains "(" line && Py.contains ")" line = false ->
      (List.length (Py.split_ws line) < 3)%nat ->
      first_line_with ld_library_path (Py.split Py.nl text) line ->
      fst (get_path_from_module popen json_loads mod_ w) = Raises IndexError).
Proof.
  assert (Hshort : forall line,
             Py.contains "(" line && Py.contains ")" line = false ->
             (List.length (Py.split_ws line) < 3)%nat ->
             get_argument_from_module_line line = Raises IndexError).
  { intros line Htcl Hlen. unfold get_argument_from_module_line. rewrite Htcl.
    apply getitem_out_of_range. lia. }
  split; [exact Hshort|].
  intros popen json_loads mod_ w text line Hout Hascii Htcl Hlen H1.
  rewrite (get_path_from_module_text _ _ _ _ _ Hout Hascii). cbn [fst].
  rewrite (path_tier1 _ _ _ H1). unfold from_ld_library_path.
  now rewrite (Hshort _ Htcl Hlen).
Qed.

Lemma short_tcl_line_witness :
  fst (get_path_from_module (sh_const "unsetenv LD_LIBRARY_PATH" 0) no_json "foo" w0)
  = Raises IndexError.
Proof.
  apply (proj2 short_tcl_line_raises
           (sh_const "unsetenv LD_LIBRARY_PATH" 0) no_json "foo" w0
           "unsetenv LD_LIBRARY_PATH" "unsetenv LD_LIBRARY_PATH");
    try reflexivity.
  - apply Nat.ltb_lt. reflexivity.
  - apply first_line_single. reflexivity.
Defined.

(** ** The Lua argument holds no delimiter *)

Lemma split_segments_no_sep (c : ascii) (s : string) :
  List.Forall (fun seg => Py.contains (Py.str1 c) seg = false) (Py.split c s).
Proof.
  induction s as [|a s IH]; [now repeat constructor|].
  cbn [Py.split]. destruct (Ascii.eqb a c) eqn:E.
  - constructor; [reflexivity|assumption].
  - destruct (Py.split c s) as [|w ws].
    { constructor; [|constructor]. unfold Py.str1 at 2.
      now rewrite contains_char_cons, E. }
    inversion IH as [|? ? Hw Hws]; subst. constructor; [|assumption].
    now rewrite contains_char_cons, E, Hw.
Qed.

(** X3. Whatever get_argument_from_module_line returns for a line of the
    Lua shape contains no occurrence of the quote character that
    delimits it. *)
Theorem lua_argument_has_no_delimiter :
  forall (line arg : string) (q : ascii),
    Py.contains "(" line = true -> Py.contains ")" line = true ->
    (0 <= Py.find "," line)%Z ->
    first_quote (Py.slice_from line (Py.find "," line)) = Some q ->
    get_argument_from_module_line line = Returns arg ->
    Py.contains (Py.str1 q) arg = false.
Proof.
  intros line arg q Hopen Hclose Hi Hq Hget.
  destruct (lua_argument_of_split _ _ Hopen Hclose Hi Hq)
    as [(init & arg' & last & Hsplit) Hall].
  rewrite (Hall _ _ _ Hsplit) in Hget. injection Hget as <-.
  pose proof (split_segments_no_sep q line) as Hsegs. rewrite Hsplit in Hsegs.
  apply List.Forall_app in Hsegs as [_ Hsegs]. now inversion Hsegs.
Qed.

Lemma lua_argument_has_no_delimiter_witness :
  Py.contains (Py.str1 Py.dq) "/opt/foo/2.0/lib64" = false.
Proof.
  apply (lua_argument_has_no_delimiter lua_line "/opt/foo/2.0/lib64" Py.dq);
    try reflexivity.
  vm_compute. discriminate.
Defined.

(** ** Where [find] points *)

Lemma find_opt_eq (sub s : string) :
  Py.find_opt sub s =
  if String.prefix sub s then Some 0%nat
  else match s with
       | "" => None
       | String _ s' => option_map S (Py.find_opt sub s')
       end.
Proof. now destruct s. Qed.

Lemma prefix_split (sub s : string) :
  String.prefix sub s = true -> s = sub ++ Py.drop (String.length sub) s.
Proof.
  revert s. induction sub as [|a sub IH]; intros s H; [reflexivity|].
  destruct s as [|b s]; [discriminate|]. cbn [String.prefix] in H.
  destruct (ascii_dec a b) as [->|]; [|discriminate].
  change (String b s = String b (sub ++ Py.drop (String.length sub) s)).
  f_equal. now apply IH.
Qed.

Lemma prefix_take (sub s : string) (n : nat) :
  String.prefix sub (Py.take n s) = true -> String.prefix sub s = true.
Proof.
  revert s n. induction sub as [|a sub IH]; intros s n H; [now destruct s|].
  destruct s as [|b s], n as [|n]; try discriminate.
  cbn [Py.take String.prefix] in *.
  destruct (ascii_dec a b); [|discriminate]. now apply (IH s n).
Qed.

Lemma take_drop (s : string) (n : nat) : s = Py.take n s ++ Py.drop n s.
Proof.
  revert s. induction n as [|n IH]; intros s; [reflexivity|].
  destruct s as [|a s]; [reflexivity|].
  change (String a s = String a (Py.take n s ++ Py.drop n s)).
  f_equal. apply IH.
Qed.

Lemma length_drop (s : string) (n : nat) :
  String.length (Py.drop n s) = (String.length s - n)%nat.
Proof.
  revert s. induction n as [|n IH]; intros s; [cbn; lia|].
  destruct s as [|a s]; [reflexivity|]. cbn [Py.drop String.length]. apply IH.
Qed.

Lemma find_opt_prefix (sub s : string) (p : nat) :
  Py.find_opt sub s = Some p -> String.prefix sub (Py.drop p s) = true.
Proof.
  revert p. induction s as [|a s IH]; intros p H; rewrite find_opt_eq in H.
  - destruct (String.prefix sub "") eqn:E; [|discriminate].
    injection H as <-. exact E.
  - destruct (String.prefix sub (String a s)) eqn:E.
    + injection H as <-. exact E.
    + destruct (Py.find_opt sub s) as [m|]; [|discriminate].
      injection H as <-. cbn [Py.drop]. now apply IH.
Qed.

Lemma prefix_length (sub s : string) :
  String.prefix sub s = true -> (String.length sub <= String.length s)%nat.
Proof.
  revert s. induction sub as [|a sub IH]; intros s H; [cbn; lia|].
  destruct s as [|b s]; [discriminate|]. cbn [String.prefix] in H.
  destruct (ascii_dec a b); [|discriminate].
  apply IH in H. cbn [String.length]. lia.
Qed.

(** The match lies inside the string. *)
Lemma find_opt_bound (sub s : string) (p : nat) :
  Py.find_opt sub s = Some p -> (p + String.length sub <= String.length s)%nat.
Proof.
  revert p. induction s as [|a s IH]; intros p H; rewrite find_opt_eq in H.
  - destruct (String.prefix sub "") eqn:E; [|discriminate].
    injection H as <-. now apply prefix_length in E.
  - destruct (String.prefix sub (String a s)) eqn:E.
    + injection H as <-. now apply prefix_length in E.
    + destruct (Py.find_opt sub s) as [m|]; [|discriminate].
      injection H as <-. specialize (IH m eq_refl). cbn [String.length]. lia.
Qed.

Lemma find_opt_drop (sub s : string) (p k : nat) :
  Py.find_opt sub s = Some p -> (k <= p)%nat ->
  Py.find_opt sub (Py.drop k s) = Some (p - k)%nat.
Proof.
  revert s p. induction k as [|k IH]; intros s p H Hk.
  - now rewrite Nat.sub_0_r.
  - rewrite find_opt_eq in H. destruct (String.prefix sub s).
    + injection H as <-. lia.
    + destruct s as [|a s]; [discriminate|].
      destruct (Py.find_opt sub s) as [m|] eqn:E; [|discriminate].
      injection H as <-. cbn [Py.drop].
      rewrite (IH s m E) by lia. f_equal.
Qed.

(** Before its first occurrence in [s] a non-empty [sub] does not
    occur. *)
Lemma find_opt_take (c : ascii) (sub s : string) (p : nat) :
  Py.find_opt (String c sub) s = Some p ->
  Py.find_opt (String c sub) (Py.take p s) = None.
Proof.
  revert p. induction s as [|a s IH]; intros p H; rewrite find_opt_eq in H.
  - discriminate.
  - destruct (String.prefix (String c sub) (String a s)) eqn:E.
    + injection H as <-. reflexivity.
    + destruct (Py.find_opt (String c sub) s) as [m|] eqn:Em; [|discriminate].
      injection H as <-. cbn [Py.take]. rewrite find_opt_eq.
      destruct (String.prefix (String c sub) (String a (Py.take m s))) eqn:E'.
      * apply (prefix_take _ (String a s) (S m)) in E'. congruence.
      * now rewrite (IH m eq_refl).
Qed.

Lemma slice_to_found (sub s : string) (p : nat) :
  Py.find_opt sub s = Some p -> Py.slice_to s (Py.find sub s) = Py.take p s.
Proof.
  intros H. pose proof (find_opt_bound _ _ _ H) as Hb.
  unfold Py.slice_to, Py.find, Py.clamp, Py.len. rewrite H. index_bounds.
  f_equal. lia.
Qed.

(** The text cut at the first occurrence of a marker: the marker
    follows it and does not occur in it. *)
Lemma truncate_at_marker (c : ascii) (sub s : string) :
  Py.contains (String c sub) s = true ->
  exists tail,
    s = Py.slice_to s (Py.find (String c sub) s) ++ String c sub ++ tail
    /\ Py.contains (String c sub) (Py.slice_to s (Py.find (String c sub) s)) = false.
Proof.
  intros H. apply contains_find_opt in H as [p Hp].
  rewrite (slice_to_found _ _ _ Hp).
  exists (Py.drop (String.length (String c sub)) (Py.drop p s)). split.
  - rewrite <- (prefix_split _ _ (find_opt_prefix _ _ _ Hp)). apply take_drop.
  - apply contains_false_find_opt. now apply find_opt_take.
Qed.

(** ** Truncation at the first marker *)

(** X4. When the argument read by the LD_LIBRARY_PATH tier contains /lib,
    get_path_from_module returns the part of the argument before its
    first /lib: /lib follows it in the argument and does not occur in
    it. The PATH tier does the same with /bin. *)
Theorem argument_cut_at_first_marker :
  (forall popen json_loads mod_ w text line arg,
      stdout (popen w (show_cmd mod_)) = text -> is_ascii text = true ->
      first_line_with ld_library_path (Py.split Py.nl text) line ->
      get_argument_from_module_line line = Returns arg ->
      Py.contains "/lib" arg = true ->
      exists dir tail,
        fst (get_path_from_module popen json_loads mod_ w) = Returns (Some dir)
        /\ arg = dir ++ "/lib" ++ tail
        /\ Py.contains "/lib" dir = false)
  /\
  (forall popen json_loads mod_ w text line arg,
      stdout (popen w (show_cmd mod_)) = text -> is_ascii text = true ->
      let lines := Py.split Py.nl text in
      no_line_with ld_library_path lines ->
      no_line_with (module_dir mod_) lines ->
      no_line_with "-rpath/" lines ->
      no_line_with "-L/" lines ->
      first_line_with "PATH" lines line ->
      get_argument_from_module_line line = Returns arg ->
      Py.contains "/bin" arg = true ->
      exists dir tail,
        fst (get_path_from_module popen json_loads mod_ w) = Returns (Some dir)
        /\ arg = dir ++ "/bin" ++ tail
        /\ Py.contains "/bin" dir = false).
Proof.
  split.
  - intros popen json_loads mod_ w text line arg Hout Hascii H1 Harg Hlib.
    rewrite (get_path_from_module_text _ _ _ _ _ Hout Hascii). cbn [fst].
    rewrite (path_tier1 _ _ _ H1). unfold from_ld_library_path.
    rewrite Harg. cbn [rbind].
    destruct (truncate_at_marker _ _ _ Hlib) as (tail & Heq & Hnone).
    now exists (Py.slice_to arg (Py.find "/lib" arg)), tail.
  - intros popen json_loads mod_ w text line arg Hout Hascii lines
      N1 N2 N3 N4 H5 Harg Hbin.
    rewrite (get_path_from_module_text _ _ _ _ _ Hout Hascii). cbn [fst].
    fold lines. rewrite (path_tier5 _ _ _ N1 N2 N3 N4 H5). unfold from_path.
    rewrite Harg. cbn [rbind].
    destruct (truncate_at_marker _ _ _ Hbin) as (tail & Heq & Hnone).
    now exists (Py.slice_to arg (Py.find "/bin" arg)), tail.
Qed.

Lemma argument_cut_witness :
  exists dir tail,
    fst (get_path_from_module (sh_const two_lib_line 0) no_json "foo" w0)
    = Returns (Some dir)
    /\ "/opt/lib/foo/lib64" = dir ++ "/lib" ++ tail
    /\ Py.contains "/lib" dir = false.
Proof.
  apply (proj1 argument_cut_at_first_marker
           (sh_const two_lib_line 0) no_json "foo" w0 two_lib_line two_lib_line
           "/opt/lib/foo/lib64" eq_refl eq_refl
           (first_line_single ld_library_path two_lib_line eq_refl)
           eq_refl eq_refl).
Defined.

(** ** The slices of the -rpath/ and -L/ tiers *)

Section SliceAfterMarker.

Variables (marker line : string) (k : nat).
Hypothesis Hk : (k <= String.length line)%nat.

Lemma slice_from_nat : Py.slice_from line (Z.of_nat k) = Py.drop k line.
Proof.
  unfold Py.slice_from, Py.clamp, Py.len. index_bounds. f_equal. lia.
Qed.

(** The marker comes at or after [k]: the slice is the rest of the
    line cut at its first marker. *)
Lemma slice_marker_follows (p : nat) :
  Py.find_opt marker line = Some p -> (k <= p)%nat ->
  Py.slice line (Z.of_nat k) (Py.find marker line)
  = Py.slice_to (Py.slice_from line (Z.of_nat k))
      (Py.find marker (Py.slice_from line (Z.of_nat k))).
Proof.
  intros Hp Hle.
  assert (Hrest : Py.find_opt marker (Py.drop k line) = Some (p - k)%nat)
    by (apply find_opt_drop; [assumption|lia]).
  rewrite slice_from_nat, (slice_to_found _ _ _ Hrest).
  pose proof (find_opt_bound _ _ _ Hp) as Hb.
  unfold Py.slice, Py.find, Py.clamp, Py.len. rewrite Hp. index_bounds.
  f_equal; [|f_equal]; lia.
Qed.

(** The marker comes at or before [k]: the slice is empty. *)
Lemma slice_marker_precedes (p : nat) :
  Py.find_opt marker line = Some p -> (p <= k)%nat ->
  Py.slice line (Z.of_nat k) (Py.find marker line) = "".
Proof.
  intros Hp Hle. pose proof (find_opt_bound _ _ _ Hp) as Hb.
  unfold Py.slice, Py.find, Py.clamp, Py.len. rewrite Hp. index_bounds.
  replace (Z.to_nat (Z.min (Z.of_nat p) (Z.of_nat (String.length line))
                     - Z.min (Z.of_nat k) (Z.of_nat (String.length line))))
    with 0%nat by lia.
  reflexivity.
Qed.

(** No marker in the line: the slice is the rest without its last
    character. *)
Lemma slice_marker_absent :
  Py.find_opt marker line = None ->
  Py.slice line (Z.of_nat k) (Py.find marker line)
  = without_last (Py.slice_from line (Z.of_nat k)).
Proof.
  intros H. rewrite slice_from_nat, <- take_without_last, length_drop.
  unfold Py.slice, Py.find, Py.clamp, Py.len. rewrite H. index_bounds.
  f_equal; [|f_equal]; lia.
Qed.

End SliceAfterMarker.

Lemma found_find_opt (sub line : string) :
  found sub line = true ->
  exists n, Py.find_opt sub line = Some n /\ Py.find sub line = Z.of_nat n.
Proof.
  intros H. apply contains_find_opt in H as [n Hn].
  exists n. split; [assumption|]. unfold Py.find. now rewrite Hn.
Qed.

(** The slice that the -rpath/ and -L/ tiers take from a line: from
    [off] characters after the match of [mk] to the first /lib of the
    line. *)
Lemma slice_after_match (mk line : string) (off : nat) :
  found mk line = true -> (off <= String.length mk)%nat ->
  let start := (Py.find mk line + Z.of_nat off)%Z in
  let rest := Py.slice_from line start in
  let out := Py.slice line start (Py.find "/lib" line) in
  ((start <= Py.find "/lib" line)%Z ->
   exists tail, rest = out ++ "/lib" ++ tail /\ Py.contains "/lib" out = false)
  /\ ((0 <= Py.find "/lib" line <= start)%Z -> out = "")
  /\ (Py.contains "/lib" line = false -> out = without_last rest).
Proof.
  intros Hmk Hoff start rest out.
  destruct (found_find_opt _ _ Hmk) as (n & Hn & Hfind).
  pose proof (find_opt_bound _ _ _ Hn) as Hb.
  assert (Hstart : start = Z.of_nat (n + off)) by (unfold start; lia).
  assert (Hk : (n + off <= String.length line)%nat) by lia.
  unfold out, rest. rewrite Hstart. clear out rest Hstart start.
  split; [|split].
  - intros Hle. unfold Py.find in Hle.
    destruct (Py.find_opt "/lib" line) as [p|] eqn:Hp; [|lia].
    rewrite (slice_marker_follows "/lib" line (n + off) Hk p Hp) by lia.
    apply truncate_at_marker. apply contains_find_opt.
    exists (p - (n + off))%nat. rewrite slice_from_nat by assumption.
    apply find_opt_drop; [assumption|lia].
  - intros [H0 Hle]. unfold Py.find in H0, Hle.
    destruct (Py.find_opt "/lib" line) as [p|] eqn:Hp; [|lia].
    assert (Hle' : (p <= n + off)%nat) by lia.
    apply (slice_marker_precedes "/lib" line (n + off) Hk p Hp Hle').
  - intros Hnone. apply contains_false_find_opt in Hnone.
    now apply slice_marker_absent.
Qed.

(** X5. The -rpath/ tier. With [start] six characters after the match (the
    slash that ends -rpath/) and [rest] the line from there on: when
    the first /lib of the line is at or after [start], the result is
    [rest] cut at its first /lib; when the first /lib of the line is at
    or before [start], the result is the empty string; when the line
    has no /lib, the result is [rest] without its last character. *)
Theorem rpath_tier_result :
  forall popen json_loads mod_ w text line,
    stdout (popen w (show_cmd mod_)) = text -> is_ascii text = true ->
    let lines := Py.split Py.nl text in
    no_line_with ld_library_path lines ->
    no_line_with (module_dir mod_) lines ->
    first_line_with "-rpath/" lines line ->
    let start := (Py.find "-rpath/" line + 6)%Z in
    let rest := Py.slice_from line start in
    exists dir,
      fst (get_path_from_module popen json_loads mod_ w) = Returns (Some dir)
      /\ ((start <= Py.find "/lib" line)%Z ->
          exists tail, rest = dir ++ "/lib" ++ tail
                       /\ Py.contains "/lib" dir = false)
      /\ ((0 <= Py.find "/lib" line <= start)%Z -> dir = "")
      /\ (Py.contains "/lib" line = false -> dir = without_last rest).
Proof.
  intros popen json_loads mod_ w text line Hout Hascii lines N1 N2 H3 start rest.
  rewrite (get_path_from_module_text _ _ _ _ _ Hout Hascii). cbn [fst].
  fold lines. rewrite (path_tier3 _ _ _ N1 N2 H3). unfold from_rpath.
  exists (Py.slice line start (Py.find "/lib" line)). split; [reflexivity|].
  destruct H3 as (_ & _ & _ & _ & Hfound).
  apply (slice_after_match "-rpath/" line 6 Hfound). cbn. lia.
Qed.

Lemma rpath_tier_witness :
  exists dir,
    fst (get_path_from_module (sh_const rpath_text 0) no_json "foo" w0)
    = Returns (Some dir)
    /\ ((3 + 6 <= Py.find "/lib" rpath_text)%Z ->
        exists tail, "/opt/foo/3.1/lib -o out" = dir ++ "/lib" ++ tail
                     /\ Py.contains "/lib" dir = false)
    /\ ((0 <= Py.find "/lib" rpath_text <= 3 + 6)%Z -> dir = "")
    /\ (Py.contains "/lib" rpath_text = false
        -> dir = without_last "/opt/foo/3.1/lib -o out").
Proof.
  apply (rpath_tier_result (sh_const rpath_text 0) no_json "foo" w0
           rpath_text rpath_text eq_refl eq_refl).
  - constructor; [reflexivity|constructor].
  - constructor; [reflexivity|constructor].
  - apply first_line_single. reflexivity.
Defined.

(** X6. The -L/ tier. With [start] two characters after the match (the
    slash that ends -L/) and [rest] the line from there on: when the
    first /lib of the line is at or after [start], the result is [rest]
    cut at its first /lib; when it is at or before [start], the result
    is the empty string; when the line has no /lib, the result is
    [rest] without its last character. *)
Theorem lib_dir_tier_result :
  forall popen json_loads mod_ w text line,
    stdout (popen w (show_cmd mod_)) = text -> is_ascii text = true ->
    let lines := Py.split Py.nl text in
    no_line_with ld_library_path lines ->
    no_line_with (module_dir mod_) lines ->
    no_line_with "-rpath/" lines ->
    first_line_with "-L/" lines line ->
    let start := (Py.find "-L/" line + 2)%Z in
    let rest := Py.slice_from line start in
    exists dir,
      fst (get_path_from_module popen json_loads mod_ w) = Returns (Some dir)
      /\ ((start <= Py.find "/lib" line)%Z ->
          exists tail, rest = dir ++ "/lib" ++ tail
                       /\ Py.contains "/lib" dir = false)
      /\ ((0 <= Py.find "/lib" line <= start)%Z -> dir = "")
      /\ (Py.contains "/lib" line = false -> dir = without_last rest).
Proof.
  intros popen json_loads mod_ w text line Hout Hascii lines N1 N2 N3 H4 start rest.
  rewrite (get_path_from_module_text _ _ _ _ _ Hout Hascii). cbn [fst].
  fold lines. rewrite (path_tier4 _ _ _ N1 N2 N3 H4). unfold from_lib_dir.
  exists (Py.slice line start (Py.find "/lib" line)). split; [reflexivity|].
  destruct H4 as (_ & _ & _ & _ & Hfound).
  apply (slice_after_match "-L/" line 2 Hfound). cbn. lia.
Qed.

Lemma lib_dir_tier_witness :
  fst (get_path_from_module (sh_const lib64_text 0) no_json "foo" w0)
  = Returns (Some "").
Proof.
  destruct (lib_dir_tier_result (sh_const lib64_text 0) no_json "foo" w0
              lib64_text lib64_text eq_refl eq_refl)
    as (dir & Hdir & _ & Hempty & _).
  - constructor; [reflexivity|constructor].
  - constructor; [reflexivity|constructor].
  - constructor; [reflexivity|constructor].
  - apply first_line_single. reflexivity.
  - rewrite Hdir. rewrite Hempty; [reflexivity|]. vm_compute. split; discriminate.
Defined.

(** ** What the commands never do *)

(** X7. Whatever [module show] prints, and whether or not a path is found
    or an error raised, get_path_from_module runs that one shell line
    and leaves the process environment as it was. *)
Theorem get_path_runs_one_show :
  forall popen json_loads mod_ w,
    spawned (snd (get_path_from_module popen json_loads mod_ w))
    = (spawned w ++ [show_cmd mod_])%list
    /\ environ (snd (get_path_from_module popen json_loads mod_ w)) = environ w.
Proof.
  intros popen json_loads mod_ w.
  unfold get_path_from_module, mbind, M_bind, bind.
  rewrite module_read_only by reflexivity.
  destruct (decode _) as [text|e]; cbn [rbind]; [|now split].
  unfold lift. cbn [snd]. now split.
Qed.

Lemma environ_setitem_spawned (key item : json) (w : World) :
  spawned (snd (environ_setitem key item w)) = spawned w.
Proof. destruct key, item; reflexivity. Qed.

Lemma assign_items_spawned (items : list (string * json)) (w : World) :
  spawned (snd (assign_items items w)) = spawned w.
Proof.
  revert w. induction items as [|[k v] items IH]; intros w; [reflexivity|].
  cbn [assign_items]. unfold mbind, M_bind, bind.
  pose proof (environ_setitem_spawned (JString k) v w) as Hs.
  destruct (environ_setitem (JString k) v w) as [[[]|e] w1]; cbn [snd] in *.
  - now rewrite IH.
  - assumption.
Qed.

Lemma assign_pairs_spawned (pairs : list json) (w : World) :
  spawned (snd (assign_pairs pairs w)) = spawned w.
Proof.
  revert w. induction pairs as [|item pairs IH]; intros w; [reflexivity|].
  cbn [assign_pairs]. unfold mbind, M_bind, bind, lift.
  destruct (unpack2 item) as [[k v]|e]; [|reflexivity]. cbn [fst snd].
  pose proof (environ_setitem_spawned k v w) as Hs.
  destruct (environ_setitem k v w) as [[[]|e] w1]; cbn [snd] in *.
  - now rewrite IH.
  - assumption.
Qed.

Lemma environ_update_spawned (d : json) (w : World) :
  spawned (snd (environ_update d w)) = spawned w.
Proof.
  unfold environ_update. destruct (truthy d); [|reflexivity].
  destruct d; try apply assign_items_spawned;
    unfold mbind, M_bind, bind, lift; cbn [iterate]; try reflexivity;
    apply assign_pairs_spawned.
Qed.

(** X8. A call that changes the environment never returns text: it returns
    None or raises; and whichever it does, it has run exactly its one
    shell line. *)
Theorem change_never_returns_text :
  forall popen json_loads tok rest w,
    list_contains tok module_change_commands = true ->
    let r := module popen json_loads (tok :: rest) w in
    (fst r = Returns None \/ exists e, fst r = Raises e)
    /\ spawned (snd r)
       = (spawned w ++ [change_cmd (tok :: rest)])%list.
Proof.
  intros popen json_loads tok rest w Htok r. subst r.
  rewrite (module_change _ _ _ _ _ Htok). cbv zeta.
  destruct (json_loads _) as [v|]; [|split; [right; eauto|reflexivity]].
  unfold mbind, M_bind, bind, environ_clear.
  pose proof (environ_update_spawned v
                {| environ := ∅;
                   spawned := spawned (logged (change_cmd (tok :: rest)) w) |}) as Hs.
  destruct (environ_update v _) as [[[]|e] w2]; cbn [fst snd spawned logged ret] in *.
  - split; [now left|assumption].
  - split; [right; eauto|assumption].
Qed.

Lemma change_never_returns_text_witness :
  let r := module (sh_const banner_output 0) loads_snapshot_line ["purge"] w0 in
  (fst r = Returns None \/ exists e, fst r = Raises e)
  /\ spawned (snd r)
     = (spawned w0 ++ [change_cmd ["purge"]])%list.
Proof.
  apply (change_never_returns_text (sh_const banner_output 0)
           loads_snapshot_line "purge" [] w0 eq_refl).
Defined.

(** ** An update that fails half way *)

Lemma assign_items_app (pre post : list (string * json)) (w : World) :
  assign_items (pre ++ post) w
  = match assign_items pre w with
    | (Returns _, w1) => assign_items post w1
    | (Raises e, w1) => (Raises e, w1)
    end.
Proof.
  revert w. induction pre as [|[k v] pre IH]; intros w; [reflexivity|].
  cbn [app assign_items]. unfold mbind, M_bind, bind.
  destruct (environ_setitem (JString k) v w) as [[[]|e] w1]; [apply IH|reflexivity].
Qed.

(** X9. When the decoded mapping has a value that is not a string, the
    call raises TypeError after the environment was cleared and the
    items before that value were assigned: the environment then holds
    exactly those items, and nothing of what it held before. *)
Theorem update_stops_at_first_non_string :
  forall popen json_loads tok rest w pre name v post,
    list_contains tok module_change_commands = true ->
    is_string v = false ->
    json_loads (last_line (stdout (popen w (change_cmd (tok :: rest)))))
    = Some (JObject (string_items pre ++ (name, v) :: post)) ->
    let r := module popen json_loads (tok :: rest) w in
    fst r = Raises TypeError
    /\ environ (snd r) = list_to_map (reverse pre).
Proof.
  intros popen json_loads tok rest w pre name v post Htok Hv Hloads r. subst r.
  rewrite (module_change _ _ _ _ _ Htok), Hloads. cbv zeta.
  unfold mbind, M_bind, bind, environ_clear, environ_update.
  replace (truthy (JObject (string_items pre ++ (name, v) :: post))) with true
    by (cbn [truthy]; rewrite length_app; cbn [List.length];
        now rewrite Nat.add_succ_r).
  rewrite assign_items_app. unfold string_items. rewrite assign_items_strings.
  cbn [assign_items environ spawned]. unfold mbind, M_bind, bind.
  rewrite set_all_empty.
  destruct v; try discriminate; cbn [environ_setitem raise fst snd environ];
    now split.
Qed.

Lemma update_stops_witness :
  let r := module (sh_const "{}" 0) (fun _ => Some half_snapshot) ["load"; "gcc"] w0 in
  fst r = Raises TypeError
  /\ environ (snd r) = list_to_map (reverse [("FOO", "bar")]).
Proof.
  apply (update_stops_at_first_non_string
           (sh_const "{}" 0) (fun _ => Some half_snapshot) "load" ["gcc"] w0
           [("FOO", "bar")] "N" (JNumber true) [("BAZ", JString "2")]);
    reflexivity.
Defined.

(** X10. When the last line decodes to a number other than zero or to
    [true], the call raises TypeError and leaves the environment
    empty. *)
Theorem truthy_scalar_empties_environ :
  forall popen json_loads tok rest w v,
    list_contains tok module_change_commands = true ->
    v = JNumber true \/ v = JBool true ->
    json_loads (last_line (stdout (popen w (change_cmd (tok :: rest))))) = Some v ->
    let r := module popen json_loads (tok :: rest) w in
    fst r = Raises TypeError /\ environ (snd r) = ∅.
Proof.
  intros popen json_loads tok rest w v Htok Hv Hloads r. subst r.
  rewrite (module_change _ _ _ _ _ Htok), Hloads.
  destruct Hv as [-> | ->]; now split.
Qed.

Lemma truthy_scalar_witness :
  let r := module (sh_const "1" 0) (fun _ => Some (JNumber true)) ["load"; "gcc"] w0 in
  fst r = Raises TypeError /\ environ (snd r) = ∅.
Proof.
  apply (truthy_scalar_empties_environ
           (sh_const "1" 0) (fun _ => Some (JNumber true)) "load" ["gcc"] w0
           (JNumber true) eq_refl (or_introl eq_refl) eq_refl).
Defined.

(** ** Looking up the new environment *)

(** X11. After a call that changed the environment from a snapshot with
    distinct names, looking a name up gives a value exactly when the
    snapshot has that item: the environment before the call plays no
    part. *)
Theorem environ_lookup_after_change :
  forall popen json_loads tok rest w kvs,
    list_contains tok module_change_commands = true ->
    NoDup kvs.*1 ->
    json_loads (last_line (stdout (popen w (change_cmd (tok :: rest)))))
    = Some (snapshot kvs) ->
    forall name value,
      environ (snd (module popen json_loads (tok :: rest) w)) !! name = Some value
      <-> (name, value) ∈ kvs.
Proof.
  intros popen json_loads tok rest w kvs Htok Hnodup Hloads name value.
  rewrite (module_change _ _ _ _ _ Htok), Hloads. cbv zeta.
  unfold mbind, M_bind, bind, environ_clear.
  rewrite environ_update_snapshot. cbn [fst snd environ spawned ret].
  rewrite set_all_empty, <- elem_of_list_to_map.
  - apply elem_of_reverse.
  - now rewrite fmap_reverse, reverse_Permutation.
Qed.

Lemma environ_lookup_witness :
  environ (snd (module (sh_const banner_output 0) loads_snapshot_line
                  ["load"; "gcc"] w0)) !! "FOO" = Some "bar".
Proof.
  apply (environ_lookup_after_change (sh_const banner_output 0)
           loads_snapshot_line "load" ["gcc"] w0 [("FOO", "bar")] eq_refl).
  - repeat constructor. intros H. inversion H.
  - reflexivity.
  - apply list_elem_of_here.
Defined.

(** ** load_module *)

Lemma getitem_next {A} (pre : list A) (word : A) (rest : list A) :
  Py.getitem (pre ++ word :: rest)%list (Z.of_nat (List.length pre) + 1)
  = match rest with
    | next :: _ => Returns next
    | [] => Raises IndexError
    end.
Proof.
  destruct rest as [|next rest].
  - apply getitem_out_of_range. rewrite length_app. cbn [List.length]. lia.
  - replace (Z.of_nat (List.length pre) + 1)%Z
      with (Z.of_nat (S (List.length pre))) by lia.
    apply getitem_nth_error.
    rewrite nth_error_app2 by lia.
    now replace (S (List.length pre) - List.length pre)%nat with 1%nat by lia.
Qed.

Section LoaderFacts.

Variable popen : World -> string -> Completed.
Variable json_loads : string -> option json.

Lemma module_change_ok (tok : string) (rest : list string) (w : World)
    (kvs : list (string * string)) :
  list_contains tok module_change_commands = true ->
  json_loads (last_line (stdout (popen w (change_cmd (tok :: rest)))))
  = Some (snapshot kvs) ->
  module popen json_loads (tok :: rest) w
  = (Returns None,
     {| environ := list_to_map (reverse kvs);
        spawned := (spawned w ++ [change_cmd (tok :: rest)])%list |}).
Proof.
  intros Htok Hloads. rewrite (module_change _ _ _ _ _ Htok), Hloads. cbv zeta.
  unfold mbind, M_bind, bind, environ_clear.
  rewrite environ_update_snapshot. cbn [environ spawned logged ret].
  now rewrite set_all_empty.
Qed.

(** The loop passes over words that are not [conflict] and unloads the
    word after each [conflict]; with a decoder that accepts every
    output it stops only at a [conflict] that is the last word. *)
Lemma unload_conflicts_run (text : list string) :
  (forall s, exists kvs, json_loads s = Some (snapshot kvs)) ->
  forall words pre w,
    text = (pre ++ words)%list ->
    exists env,
      unload_conflicts popen json_loads text (List.length pre) words w
      = (if ends_with_conflict words then Raises IndexError else Returns tt,
         {| environ := env;
            spawned := (spawned w ++ List.map unload_cmd (conflicts words))%list |}).
Proof.
  intros Hdec words. induction words as [|word rest IH]; intros pre w Htext.
  - exists (environ w). cbn [unload_conflicts ends_with_conflict conflicts List.map].
    rewrite app_nil_r. now destruct w.
  - assert (Htext' : text = ((pre ++ [word]) ++ rest)%list)
      by now rewrite <- app_assoc.
    assert (Hlen : List.length (pre ++ [word]) = S (List.length pre))
      by (rewrite length_app; cbn [List.length]; lia).
    assert (Hget : Py.getitem text (Z.of_nat (List.length pre) + 1)
                   = match rest with
                     | next :: _ => Returns next
                     | [] => Raises IndexError
                     end)
      by (rewrite Htext; apply getitem_next).
    cbn [unload_conflicts conflicts]. unfold is_conflict.
    destruct (String.eqb word "conflict") eqn:Hword.
    + unfold mbind at 1, M_bind at 1, bind at 1.
      unfold mbind at 1, M_bind at 1, bind at 1, lift.
      rewrite Hget.
      destruct rest as [|next rest'].
      * exists (environ w). cbn [ends_with_conflict List.map]. unfold is_conflict.
        rewrite Hword, app_nil_r. now destruct w.
      * destruct (Hdec (last_line (stdout (popen w (change_cmd ["unload"; next])))))
          as [kvs Hkvs].
        unfold mbind at 1, M_bind at 1, bind at 1.
        rewrite (module_change_ok "unload" [next] w kvs eq_refl Hkvs).
        cbn [ret].
        destruct (IH (pre ++ [word])%list
                    {| environ := list_to_map (reverse kvs);
                       spawned := (spawned w ++ [change_cmd ["unload"; next]])%list |}
                    Htext') as [env Henv].
        rewrite Hlen in Henv. exists env. rewrite Henv.
        cbn [spawned List.map]. rewrite <- app_assoc.
        now change (ends_with_conflict (word :: next :: rest'))
          with (ends_with_conflict (next :: rest')).
    + unfold mbind at 1, M_bind at 1, bind at 1. cbn [ret].
      destruct (IH (pre ++ [word])%list w Htext') as [env Henv].
      rewrite Hlen in Henv. exists env. rewrite Henv.
      destruct rest as [|next rest']; [|reflexivity].
      cbn [ends_with_conflict]. unfold is_conflict. now rewrite Hword.
Qed.

(** The first unload whose output does not decode stops the loop. *)
Lemma unload_conflicts_fails (text : list string) (name : string)
    (more : list string) :
  forall words pre w,
    text = (pre ++ words)%list ->
    conflicts words = name :: more ->
    json_loads (last_line (stdout (popen w (unload_cmd name)))) = None ->
    unload_conflicts popen json_loads text (List.length pre) words w
    = (Raises not_json, logged (unload_cmd name) w).
Proof.
  intros words. induction words as [|word rest IH]; intros pre w Htext Hc Hloads;
    [discriminate|].
  assert (Htext' : text = ((pre ++ [word]) ++ rest)%list)
    by now rewrite <- app_assoc.
  assert (Hlen : List.length (pre ++ [word]) = S (List.length pre))
    by (rewrite length_app; cbn [List.length]; lia).
  assert (Hget : Py.getitem text (Z.of_nat (List.length pre) + 1)
                 = match rest with
                   | next :: _ => Returns next
                   | [] => Raises IndexError
                   end)
    by (rewrite Htext; apply getitem_next).
  cbn [unload_conflicts conflicts] in *. unfold is_conflict in Hc.
  destruct (String.eqb word "conflict") eqn:Hword.
  - destruct rest as [|next rest']; [discriminate|]. injection Hc as -> _.
    unfold mbind at 1, M_bind at 1, bind at 1.
    unfold mbind at 1, M_bind at 1, bind at 1, lift.
    rewrite Hget.
    unfold mbind at 1, M_bind at 1, bind at 1.
    rewrite (module_change popen json_loads "unload" [name] w eq_refl).
    fold (unload_cmd name). now rewrite Hloads.
  - unfold mbind at 1, M_bind at 1, bind at 1. cbn [ret].
    rewrite <- Hlen. now apply IH.
Qed.

End LoaderFacts.

Lemma bind_run {A B} (c : M A) (k : A -> M B) (w w' : World) (r : result A) :
  c w = (r, w') ->
  (c ≫= k) w = match r with
               | Returns a => k a w'
               | Raises e => (Raises e, w')
               end.
Proof. intros H. unfold mbind, M_bind, bind. rewrite H. now destruct r. Qed.

Lemma load_module_after_show popen json_loads (mod_ out : string) (w : World) :
  stdout (popen w (show_cmd mod_)) = out -> is_ascii out = true ->
  load_module popen json_loads mod_ w
  = (unload_conflicts popen json_loads (Py.split_ws out) 0 (Py.split_ws out);;
     module popen json_loads ["load"; mod_];;
     ret tt) (logged (show_cmd mod_) w).
Proof.
  intros Hout Hascii. unfold load_module.
  now rewrite (bind_run _ _ _ _ _ (module_show _ _ _ _ _ Hout Hascii)).
Qed.

(** X12. With a decoder that accepts every output, and a text that does not
    end in the word [conflict], load_module runs [module show], then
    one [module unload] for the word after each [conflict], in the
    order of the text, then [module load]; it returns None, and the
    environment is the snapshot decoded from the output of the load. *)
Theorem load_module_unloads_then_loads :
  forall popen json_loads mod_ w out,
    (forall s, exists kvs, json_loads s = Some (snapshot kvs)) ->
    stdout (popen w (show_cmd mod_)) = out -> is_ascii out = true ->
    ends_with_conflict (Py.split_ws out) = false ->
    let r := load_module popen json_loads mod_ w in
    let before_load :=
      (spawned w ++ show_cmd mod_
         :: List.map unload_cmd (conflicts (Py.split_ws out)))%list in
    fst r = Returns tt
    /\ spawned (snd r) = (before_load ++ [load_cmd mod_])%list
    /\ exists wl kvs,
         spawned wl = before_load
         /\ json_loads (last_line (stdout (popen wl (load_cmd mod_))))
            = Some (snapshot kvs)
         /\ environ (snd r) = list_to_map (reverse kvs).
Proof.
  intros popen json_loads mod_ w out Hdec Hout Hascii Hend r before_load.
  subst r. rewrite (load_module_after_show _ _ _ _ _ Hout Hascii).
  destruct (unload_conflicts_run popen json_loads (Py.split_ws out) Hdec
              (Py.split_ws out) [] (logged (show_cmd mod_) w) eq_refl)
    as [env Hrun].
  cbn [List.length] in Hrun. rewrite Hend in Hrun.
  rewrite (bind_run _ _ _ _ _ Hrun).
  set (wl := {| environ := env;
                spawned := (spawned (logged (show_cmd mod_) w)
                            ++ List.map unload_cmd (conflicts (Py.split_ws out)))%list |}).
  assert (Hwl : spawned wl = before_load).
  { unfold wl, before_load, logged. cbn [spawned]. now rewrite <- app_assoc. }
  clearbody wl.
  destruct (Hdec (last_line (stdout (popen wl (load_cmd mod_))))) as [kvs Hkvs].
  rewrite (bind_run _ _ _ _ _
             (module_change_ok popen json_loads "load" [mod_] wl kvs eq_refl Hkvs)).
  cbn [ret fst snd spawned environ]. fold (load_cmd mod_). rewrite Hwl.
  split; [reflexivity|split; [reflexivity|]].
  now exists wl, kvs.
Qed.

Lemma load_module_witness :
  let r := load_module (sh_const conflict_text 0) (loads_always [("FOO", "bar")])
             "gcc/9.1.0" w0 in
  fst r = Returns tt
  /\ spawned (snd r)
     = [show_cmd "gcc/9.1.0"; unload_cmd "gcc/4.9"; unload_cmd "intel";
        load_cmd "gcc/9.1.0"].
Proof.
  destruct (load_module_unloads_then_loads
              (sh_const conflict_text 0) (loads_always [("FOO", "bar")])
              "gcc/9.1.0" w0 conflict_text) as (Hr & Hs & _);
    [intros s; now exists [("FOO", "bar")]|reflexivity|reflexivity|reflexivity|].
  split; [exact Hr|exact Hs].
Defined.

(** X13. With a decoder that accepts every output, and a text whose last
    word is [conflict], load_module raises IndexError after the unloads
    for the earlier conflicts: [module load] is never run. *)
Theorem load_module_dangling_conflict :
  forall popen json_loads mod_ w out,
    (forall s, exists kvs, json_loads s = Some (snapshot kvs)) ->
    stdout (popen w (show_cmd mod_)) = out -> is_ascii out = true ->
    ends_with_conflict (Py.split_ws out) = true ->
    let r := load_module popen json_loads mod_ w in
    fst r = Raises IndexError
    /\ spawned (snd r)
       = (spawned w ++ show_cmd mod_
            :: List.map unload_cmd (conflicts (Py.split_ws out)))%list.
Proof.
  intros popen json_loads mod_ w out Hdec Hout Hascii Hend r.
  subst r. rewrite (load_module_after_show _ _ _ _ _ Hout Hascii).
  destruct (unload_conflicts_run popen json_loads (Py.split_ws out) Hdec
              (Py.split_ws out) [] (logged (show_cmd mod_) w) eq_refl)
    as [env Hrun].
  cbn [List.length] in Hrun. rewrite Hend in Hrun.
  rewrite (bind_run _ _ _ _ _ Hrun).
  cbn [fst snd spawned logged]. now rewrite <- app_assoc.
Qed.

Lemma load_module_dangling_witness :
  let r := load_module (sh_const "conflict gcc conflict" 0)
             (loads_always []) "intel" w0 in
  fst r = Raises IndexError
  /\ spawned (snd r) = [show_cmd "intel"; unload_cmd "gcc"].
Proof.
  apply (load_module_dangling_conflict
           (sh_const "conflict gcc conflict" 0) (loads_always []) "intel" w0
           "conflict gcc conflict");
    [intros s; now exists []|reflexivity|reflexivity|reflexivity].
Defined.

(** X14. When the output of the unload for the first conflict does not
    decode, load_module raises the decoder's ValueError: the later
    unloads and [module load] are never run, and the environment is
    what it was. *)
Theorem load_module_failed_unload :
  forall popen json_loads mod_ w out name more,
    stdout (popen w (show_cmd mod_)) = out -> is_ascii out = true ->
    conflicts (Py.split_ws out) = name :: more ->
    json_loads (last_line (stdout (popen (logged (show_cmd mod_) w)
                                     (unload_cmd name)))) = None ->
    let r := load_module popen json_loads mod_ w in
    fst r = Raises not_json
    /\ environ (snd r) = environ w
    /\ spawned (snd r) = (spawned w ++ [show_cmd mod_; unload_cmd name])%list.
Proof.
  intros popen json_loads mod_ w out name more Hout Hascii Hc Hloads r.
  subst r. rewrite (load_module_after_show _ _ _ _ _ Hout Hascii).
  rewrite (bind_run _ _ _ _ _
             (unload_conflicts_fails popen json_loads (Py.split_ws out) name more
                (Py.split_ws out) [] (logged (show_cmd mod_) w) eq_refl Hc Hloads)).
  cbn [fst snd environ spawned logged]. now rewrite <- app_assoc.
Qed.

Lemma load_module_failed_unload_witness :
  let r := load_module (sh_const conflict_text 0) no_json "gcc/9.1.0" w0 in
  fst r = Raises not_json
  /\ environ (snd r) = environ w0
  /\ spawned (snd r) = (spawned w0 ++ [show_cmd "gcc/9.1.0"; unload_cmd "gcc/4.9"])%list.
Proof.
  apply (load_module_failed_unload (sh_const conflict_text 0) no_json
           "gcc/9.1.0" w0 conflict_text "gcc/4.9" ["intel"]);
    reflexivity.
Defined.
